(** * Dateformatter: the response parsers and the date-enrichment pass

    A shallow embedding of [src/dateformatter_llm.py] (class [DateAwareLLM])
    and [src/timezone.py] (class [TimezoneAwareDateLLM], which the file
    defines twice: a first version, and below it a second one whose
    [_parse_response] is written "with robust error handling").

    Python values are modelled as follows.
    - [str] is a list of Unicode code points ([N]); a literal is [lit "..."].
    - An operation that can raise returns [res A]: [Ok a] or [Raise e].
    - A [dict] with string keys is an association list in insertion order.
    - The language model behind [date_parser_chain], [dateutil.parser.parse],
      [datetime.isoformat], [datetime.strftime] and the clock
      ([datetime.now]) are parameters of the functions that call them. *)

From Stdlib Require Import List NArith ZArith Bool Lia String Ascii DecimalString.
From Stdlib Require DecimalPos DecimalZ.
Import ListNotations.

(** ** Python runtime: strings, exceptions, lists, dictionaries *)
Module Py.

Definition char := N.
Definition str := list char.

(** A string literal of the source (all literals used are ASCII). *)
Definition lit (s : string) : str := map N_of_ascii (list_ascii_of_string s).

(** The line feed, written ["\n"] in the source. *)
Definition nl : str := [10%N].

Inductive exn : Set :=
| IndexError
| ValueError
| OverflowError
| ExternalError.

Inductive res (A : Type) : Type :=
| Ok (a : A)
| Raise (e : exn).
Arguments Ok {A} a.
Arguments Raise {A} e.

Definition bind {A B : Type} (m : res A) (f : A -> res B) : res B :=
  match m with
  | Ok a => f a
  | Raise e => Raise e
  end.

Declare Scope py_scope.
Delimit Scope py_scope with py.
Notation "x <- m ;; k" := (bind m (fun x => k))
  (at level 61, m at next level, right associativity) : py_scope.
Notation "' p <- m ;; k" := (bind m (fun x => match x with p => k end))
  (at level 61, p pattern, m at next level, right associativity) : py_scope.

Fixpoint str_eqb (a b : str) : bool :=
  match a, b with
  | [], [] => true
  | x :: a', y :: b' => N.eqb x y && str_eqb a' b'
  | _, _ => false
  end.

(** Truth value of a string: [if s:] holds for a non-empty string. *)
Definition truthy (s : str) : bool :=
  match s with
  | [] => false
  | _ :: _ => true
  end.

(** [str.isspace] on one code point, the set CPython's [str.strip()] removes. *)
Definition isspace (c : char) : bool :=
  ((9 <=? c) && (c <=? 13) || (28 <=? c) && (c <=? 32) || (c =? 133) || (c =? 160)
   || (c =? 5760) || (8192 <=? c) && (c <=? 8202) || (c =? 8232) || (c =? 8233)
   || (c =? 8239) || (c =? 8287) || (c =? 12288))%N.

Fixpoint lstrip_by (p : char -> bool) (s : str) : str :=
  match s with
  | [] => []
  | c :: s' => if p c then lstrip_by p s' else s
  end.

Definition rstrip_by (p : char -> bool) (s : str) : str :=
  rev (lstrip_by p (rev s)).

Definition strip_by (p : char -> bool) (s : str) : str :=
  rstrip_by p (lstrip_by p s).

(** [s.strip()] *)
Definition strip (s : str) : str := strip_by isspace s.

(** [s.strip(chars)] *)
Definition strip_chars (s chars : str) : str :=
  strip_by (fun c => existsb (N.eqb c) chars) s.

(** [s.startswith(p)] *)
Fixpoint startswith (s p : str) : bool :=
  match p, s with
  | [], _ => true
  | _ :: _, [] => false
  | a :: p', b :: s' => N.eqb a b && startswith s' p'
  end.

(** [sub in s] *)
Fixpoint str_in (sub s : str) : bool :=
  startswith s sub ||
  match s with
  | [] => false
  | _ :: s' => str_in sub s'
  end.

Definition cons_hd (c : char) (l : list str) : list str :=
  match l with
  | [] => [[c]]
  | p :: ps => (c :: p) :: ps
  end.

(** The scan behind [s.split(sep, maxsplit)] for a non-empty [sep]: from left
    to right, at each position where [sep] starts (and splits remain) the
    current piece is closed and [length sep] code points are skipped
    ([skip] counts those still to skip); other code points join the current
    piece.  A negative [maxsplit] never reaches 0: no limit. *)
Fixpoint split_go (sep : str) (maxsplit : Z) (skip : nat) (s : str) : list str :=
  match s with
  | [] => [[]]
  | c :: s' =>
      match skip with
      | S k => split_go sep maxsplit k s'
      | O =>
          if negb (maxsplit =? 0)%Z && startswith s sep
          then [] :: split_go sep (maxsplit - 1) (List.length sep - 1) s'
          else cons_hd c (split_go sep maxsplit 0 s')
      end
  end.

(** [s.split(sep, maxsplit)]; an empty separator raises ValueError. *)
Definition split_max (s sep : str) (maxsplit : Z) : res (list str) :=
  match sep with
  | [] => Raise ValueError
  | _ :: _ => Ok (split_go sep maxsplit 0 s)
  end.

(** [s.split(sep)] *)
Definition split (s sep : str) : res (list str) := split_max s sep (-1).

(** [l[i]] for a non-negative index. *)
Definition index {A : Type} (l : list A) (i : nat) : res A :=
  match nth_error l i with
  | Some x => Ok x
  | None => Raise IndexError
  end.

(** [a, b = l] *)
Definition unpack2 {A : Type} (l : list A) : res (A * A) :=
  match l with
  | [a; b] => Ok (a, b)
  | _ => Raise ValueError
  end.

(** [str(n)] for an integer. *)
Definition str_of_int (z : Z) : str := lit (NilZero.string_of_int (Z.to_int z)).

(** A dictionary with string keys and values, in insertion order. *)
Definition dict := list (str * str).

(** [d[k] = v]: a present key keeps its place and takes the new value, a new
    key goes to the end. *)
Fixpoint dict_set (d : dict) (k v : str) : dict :=
  match d with
  | [] => [(k, v)]
  | (k', v') :: d' =>
      if str_eqb k' k then (k', v) :: d' else (k', v') :: dict_set d' k v
  end.

Definition keys (d : dict) : list str := map fst d.

(** [datetime.date], by its proleptic Gregorian ordinal, and the difference
    of two dates, a [timedelta] of whole days. *)
Record date : Set := { toordinal : Z }.
Record timedelta : Set := { days : Z }.
Definition date_sub (a b : date) : timedelta :=
  {| days := toordinal a - toordinal b |}.

End Py.

Arguments Py.lit s%_string.

(** ** src/dateformatter_llm.py: class DateAwareLLM *)
Module DateAware.
Import Py.
Local Open Scope py_scope.

(** The dictionary [result] of [_parse_date_response]. *)
Record DateResult : Type := {
  original_text : str;
  standardized_text : str;
  extracted_dates : list str
}.

Definition set_original_text (r : DateResult) (v : str) : DateResult :=
  {| original_text := v;
     standardized_text := standardized_text r;
     extracted_dates := extracted_dates r |}.

Definition set_standardized_text (r : DateResult) (v : str) : DateResult :=
  {| original_text := original_text r;
     standardized_text := v;
     extracted_dates := extracted_dates r |}.

Definition set_extracted_dates (r : DateResult) (v : list str) : DateResult :=
  {| original_text := original_text r;
     standardized_text := standardized_text r;
     extracted_dates := v |}.

(** [DateAwareLLM._parse_date_response] (lines 99-116). *)
Definition _parse_date_response (response : str) : res DateResult :=
  let result :=
    {| original_text := []; standardized_text := []; extracted_dates := [] |} in
  result <-
    (if str_in (lit "Original text:") response then
       a <- split response (lit "Original text:") ;;
       b <- index a 1 ;;
       c <- split b (lit "Standardized text:") ;;
       d <- index c 0 ;;
       Ok (set_original_text result (strip d))
     else Ok result) ;;
  result <-
    (if str_in (lit "Standardized text:") response then
       a <- split response (lit "Standardized text:") ;;
       b <- index a 1 ;;
       c <- split b (lit "Extracted dates:") ;;
       d <- index c 0 ;;
       Ok (set_standardized_text result (strip d))
     else Ok result) ;;
  result <-
    (if str_in (lit "Extracted dates:") response then
       a <- split response (lit "Extracted dates:") ;;
       b <- index a 1 ;;
       let dates_str := strip b in
       v <- (if truthy dates_str then
               l <- split dates_str (lit ",") ;;
               Ok (map strip l)
             else Ok []) ;;
       Ok (set_extracted_dates result v)
     else Ok result) ;;
  Ok result.

(** One dictionary appended to [enhanced_info["dates"]]. *)
Record DateEntry : Type := {
  iso_format : str;
  day_of_week : str;
  relative : str
}.

(** The dictionary [enhanced_info] of [process_text_with_dates]; the last two
    lists are created empty and never filled. *)
Record EnhancedInfo : Type := {
  original : str;
  standardized : str;
  dates : list DateEntry;
  relative_dates : list str;
  date_relations : list str
}.

Definition append_date (i : EnhancedInfo) (e : DateEntry) : EnhancedInfo :=
  {| original := original i;
     standardized := standardized i;
     dates := dates i ++ [e];
     relative_dates := relative_dates i;
     date_relations := date_relations i |}.

Section Pipeline.

(** [datetime.datetime] objects and the library calls made on them. *)
Variable datetime : Type.
Variable dt_date : datetime -> date.
Variable isoformat : datetime -> res str.
Variable strftime : datetime -> str -> res str.
(** [dateutil.parser.parse]. *)
Variable dateutil_parse : str -> res datetime.
(** [datetime.now().date()] as read during the [k]-th turn of the loop. *)
Variable now : nat -> date.
(** [self.date_parser_chain.ainvoke], awaited: the model's completion. *)
Variable date_parser_chain : str -> res str.

(** [DateAwareLLM._get_relative_date_description] (lines 153-168), with the
    clock reading [today] made explicit. *)
Definition _get_relative_date_description (today : date) (date_obj : datetime) : str :=
  let date := dt_date date_obj in
  let delta := date_sub date today in
  if (days delta =? 0)%Z then lit "today"
  else if (days delta =? 1)%Z then lit "tomorrow"
  else if (days delta =? -1)%Z then lit "yesterday"
  else if (days delta >? 0)%Z then lit "in " ++ str_of_int (days delta) ++ lit " days"
  else str_of_int (Z.abs (days delta)) ++ lit " days ago".

(** The body of the [try] in the loop of [process_text_with_dates]. *)
Definition describe (k : nat) (date_str : str) : res DateEntry :=
  date_obj <- dateutil_parse date_str ;;
  iso <- isoformat date_obj ;;
  dow <- strftime date_obj (lit "%A") ;;
  Ok {| iso_format := iso;
        day_of_week := dow;
        relative := _get_relative_date_description (now k) date_obj |}.

(** The loop [for date_str in date_info["extracted_dates"]] with its
    [try ... except: continue]. *)
Fixpoint analyze (k : nat) (extracted : list str) (enhanced_info : EnhancedInfo)
  : EnhancedInfo :=
  match extracted with
  | [] => enhanced_info
  | date_str :: rest =>
      match describe k date_str with
      | Ok entry => analyze (S k) rest (append_date enhanced_info entry)
      | Raise _ => analyze (S k) rest enhanced_info
      end
  end.

(** The entries the loop appends for a list of strings, the first of them
    handled in turn [k]: one per string whose [try] body succeeds. *)
Fixpoint successes (k : nat) (extracted : list str) : list DateEntry :=
  match extracted with
  | [] => []
  | date_str :: rest =>
      match describe k date_str with
      | Ok entry => entry :: successes (S k) rest
      | Raise _ => successes (S k) rest
      end
  end.

(** [DateAwareLLM.extract_dates] (lines 94-97). *)
Definition extract_dates (text : str) : res DateResult :=
  response <- date_parser_chain text ;;
  _parse_date_response response.

(** [DateAwareLLM.process_text_with_dates] (lines 125-151). *)
Definition process_text_with_dates (text : str) : res EnhancedInfo :=
  date_info <- extract_dates text ;;
  let enhanced_info :=
    {| original := text;
       standardized := standardized_text date_info;
       dates := [];
       relative_dates := [];
       date_relations := [] |} in
  Ok (analyze 0 (extracted_dates date_info) enhanced_info).

End Pipeline.

Section Questions.

(** [self.date_parser_chain.ainvoke] and [self.qa_chain.ainvoke], awaited;
    the second receives the question and the date context. *)
Variable date_parser_chain : str -> res str.
Variable qa_chain : str -> str -> res str.

(** [DateAwareLLM.answer_date_question] (lines 118-123).  The argument
    [date_context] defaults to [None]; [not date_context] holds for [None]
    and for the empty string. *)
Definition answer_date_question (question : str) (date_context : option str)
  : res str :=
  date_context <-
    (if match date_context with
        | None => true
        | Some c => negb (truthy c)
        end
     then date_info <- extract_dates date_parser_chain question ;;
          Ok (standardized_text date_info)
     else Ok (match date_context with
              | Some c => c
              | None => []
              end)) ;;
  qa_chain question date_context.

End Questions.

End DateAware.

(** ** src/timezone.py: class TimezoneAwareDateLLM *)
Module TimezoneAware.
Import Py.
Local Open Scope py_scope.

(** The dictionary [result] of [_parse_response]. *)
Record TzResult : Type := {
  original : str;
  detected_timezone : str;
  standardized : str;
  global_equivalents : dict
}.

Definition empty_result : TzResult :=
  {| original := []; detected_timezone := []; standardized := [];
     global_equivalents := [] |}.

Definition set_original (r : TzResult) (v : str) : TzResult :=
  {| original := v;
     detected_timezone := detected_timezone r;
     standardized := standardized r;
     global_equivalents := global_equivalents r |}.

Definition set_detected_timezone (r : TzResult) (v : str) : TzResult :=
  {| original := original r;
     detected_timezone := v;
     standardized := standardized r;
     global_equivalents := global_equivalents r |}.

Definition set_standardized (r : TzResult) (v : str) : TzResult :=
  {| original := original r;
     detected_timezone := detected_timezone r;
     standardized := v;
     global_equivalents := global_equivalents r |}.

(** [result["global_equivalents"][tz] = dt] *)
Definition set_equivalent (r : TzResult) (tz dt : str) : TzResult :=
  {| original := original r;
     detected_timezone := detected_timezone r;
     standardized := standardized r;
     global_equivalents := dict_set (global_equivalents r) tz dt |}.

(** *** The first definition of the class (lines 14-97) *)
Module V1.

(** The loop over the lines of the equivalents block (lines 92-95). *)
Fixpoint equivalents_loop (lines : list str) (result : TzResult) : res TzResult :=
  match lines with
  | [] => Ok result
  | line :: rest =>
      if str_in (lit "-") line then
        a <- split_max line (lit ":") 1 ;;
        ' (tz, dt) <- unpack2 a ;;
        equivalents_loop rest (set_equivalent result (strip_chars tz (lit "- ")) (strip dt))
      else equivalents_loop rest result
  end.

(** [TimezoneAwareDateLLM._parse_response], first definition (lines 74-97). *)
Definition _parse_response (response : str) : res TzResult :=
  let result := empty_result in
  result <-
    (if str_in (lit "Original:") response then
       a <- split response (lit "Original:") ;;
       b <- index a 1 ;;
       c <- split b (lit "Detected Timezone:") ;;
       d <- index c 0 ;;
       Ok (set_original result (strip d))
     else Ok result) ;;
  result <-
    (if str_in (lit "Detected Timezone:") response then
       a <- split response (lit "Detected Timezone:") ;;
       b <- index a 1 ;;
       c <- split b (lit "Standardized (ISO 8601):") ;;
       d <- index c 0 ;;
       Ok (set_detected_timezone result (strip d))
     else Ok result) ;;
  result <-
    (if str_in (lit "Standardized (ISO 8601):") response then
       a <- split response (lit "Standardized (ISO 8601):") ;;
       b <- index a 1 ;;
       c <- split b (lit "Global Equivalents:") ;;
       d <- index c 0 ;;
       Ok (set_standardized result (strip d))
     else Ok result) ;;
  result <-
    (if str_in (lit "Global Equivalents:") response then
       a <- split response (lit "Global Equivalents:") ;;
       b <- index a 1 ;;
       let equivalents := strip b in
       lines <- split equivalents nl ;;
       equivalents_loop lines result
     else Ok result) ;;
  Ok result.

Section Chain.

(** [self.date_parser_chain.ainvoke], awaited. *)
Variable date_parser_chain : str -> res str.

(** [TimezoneAwareDateLLM.process_datetime_with_timezones], first
    definition (lines 69-72). *)
Definition process_datetime_with_timezones (text : str) : res TzResult :=
  response <- date_parser_chain text ;;
  _parse_response response.

End Chain.

End V1.

(** *** The second definition of the class (lines 163-264) *)

(** Statements of the [try] block: they update [result] in place and may
    raise, and the state reached when an exception is raised is kept. *)
Definition SE (A : Type) : Type := TzResult -> TzResult * res A.

Definition se_ret {A : Type} (a : A) : SE A := fun s => (s, Ok a).

Definition se_bind {A B : Type} (m : SE A) (f : A -> SE B) : SE B :=
  fun s =>
    match m s with
    | (s', Ok a) => f a s'
    | (s', Raise e) => (s', Raise e)
    end.

Definition se_lift {A : Type} (m : res A) : SE A := fun s => (s, m).

Definition se_modify (f : TzResult -> TzResult) : SE unit :=
  fun s => (f s, Ok tt).

(** [try: m  except ValueError: continue] *)
Definition except_ValueError (m : SE unit) : SE unit :=
  fun s =>
    match m s with
    | (s', Raise ValueError) => (s', Ok tt)
    | r => r
    end.

Fixpoint for_each {A : Type} (l : list A) (body : A -> SE unit) : SE unit :=
  match l with
  | [] => se_ret tt
  | x :: rest => se_bind (body x) (fun _ => for_each rest body)
  end.

Declare Scope se_scope.
Delimit Scope se_scope with se.
Notation "x <- m ;; k" := (se_bind m (fun x => k))
  (at level 61, m at next level, right associativity) : se_scope.
Notation "m ;;; k" := (se_bind m (fun _ => k))
  (at level 61, right associativity) : se_scope.

(** The body of the loop over the lines of the block (lines 249-259). *)
Definition equivalents_line (line : str) : SE unit :=
  let line := strip line in
  if startswith line (lit "-") && str_in (lit ":") line then
    except_ValueError
      (a <- se_lift (split_max (skipn 1 line) (lit ":") 1) ;;
       p <- se_lift (unpack2 a) ;;
       let tz := strip (fst p) in
       let dt := strip (snd p) in
       if truthy tz && truthy dt
       then se_modify (fun r => set_equivalent r tz dt)
       else se_ret tt)%se
  else se_ret tt.

(** The body of the outer [try] (lines 233-259). *)
Definition try_block (response : str) : SE unit :=
  (p_original <- se_lift
     (if str_in (lit "Original:") response
      then a <- split response (lit "Original:") ;; index a 1
      else Ok [])%py ;;
   p_detected_timezone <- se_lift
     (if str_in (lit "Detected Timezone:") response
      then a <- split response (lit "Detected Timezone:") ;; index a 1
      else Ok [])%py ;;
   p_standardized <- se_lift
     (if str_in (lit "Standardized (ISO 8601):") response
      then a <- split response (lit "Standardized (ISO 8601):") ;; index a 1
      else Ok [])%py ;;
   p_equivalents <- se_lift
     (if str_in (lit "Global Equivalents:") response
      then a <- split response (lit "Global Equivalents:") ;; index a 1
      else Ok [])%py ;;
   v <- se_lift
     (if truthy p_original
      then a <- split p_original (lit "Detected Timezone:") ;;
           b <- index a 0 ;; Ok (strip b)
      else Ok [])%py ;;
   se_modify (fun r => set_original r v) ;;;
   v <- se_lift
     (if truthy p_detected_timezone
      then a <- split p_detected_timezone (lit "Standardized (ISO 8601):") ;;
           b <- index a 0 ;; Ok (strip b)
      else Ok [])%py ;;
   se_modify (fun r => set_detected_timezone r v) ;;;
   v <- se_lift
     (if truthy p_standardized
      then a <- split p_standardized (lit "Global Equivalents:") ;;
           b <- index a 0 ;; Ok (strip b)
      else Ok [])%py ;;
   se_modify (fun r => set_standardized r v) ;;;
   if truthy p_equivalents then
     lines <- se_lift (split p_equivalents nl) ;;
     for_each lines equivalents_line
   else se_ret tt)%se.

(** [TimezoneAwareDateLLM._parse_response], second definition (lines
    223-264): the result, and the exception named in the printed warning
    when the [try] block raised one. *)
Definition _parse_response (response : str) : TzResult * option exn :=
  let result := empty_result in
  match try_block response result with
  | (result, Ok _) => (result, None)
  | (result, Raise e) => (result, Some e)
  end.

Section Chain.

(** [self.date_parser_chain.ainvoke], awaited. *)
Variable date_parser_chain : str -> res str.

(** [TimezoneAwareDateLLM.process_datetime_with_timezones], second
    definition (lines 218-221). *)
Definition process_datetime_with_timezones (text : str)
  : res (TzResult * option exn) :=
  response <- date_parser_chain text ;;
  Ok (_parse_response response).

End Chain.

End TimezoneAware.

(** ** Derived notions used to state the properties *)
Module Slices.
Import Py.

(** The piece [s.split(marker)[1]] when [marker] occurs in [s]: the text
    from the end of the first occurrence of [marker] up to its next
    occurrence or the end of [s]; empty when [marker] does not occur. *)
Definition after (s marker : str) : str :=
  if str_in marker s then nth 1 (split_go marker (-1) 0 s) [] else [].

(** The piece [s.split(marker)[0]]: the text before the first occurrence of
    [marker], all of [s] when there is none. *)
Definition before (s marker : str) : str :=
  nth 0 (split_go marker (-1) 0 s) [].

(** [marker] occurs in [s] exactly once, between [pre] and [post]. *)
Definition occurs_once (marker s pre post : str) : Prop :=
  s = pre ++ marker ++ post /\ str_in marker pre = false /\ str_in marker post = false.

(** The first code point of [marker] does not occur again in it, so two
    occurrences of [marker] cannot overlap. *)
Definition unbordered (marker : str) : bool :=
  match marker with
  | [] => false
  | h :: t => negb (existsb (N.eqb h) t)
  end.

(** The date list made from the trimmed text after the last marker. *)
Definition dates_of (dates_str : str) : list str :=
  if truthy dates_str then map strip (split_go (lit ",") (-1) 0 dates_str) else [].



End Slices.

(** ** The equivalents block, following the wording of the specification

    "split into lines; a line qualifies only if [after trimming] it starts
    with - and contains at least one :; split on the first : only; both the
    label and the value must be non-empty to be recorded; later occurrences
    of the same label overwrite earlier ones". *)
Module BlockSpec.
Import Py.

(** The lines of a text, cut at each line feed. *)
Fixpoint lines (s : str) : list str :=
  match s with
  | [] => [[]]
  | c :: s' => if (c =? 10)%N then [] :: lines s' else cons_hd c (lines s')
  end.

(** A text cut at its first colon: what precedes it and what follows it. *)
Fixpoint cut_colon (s : str) : str * str :=
  match s with
  | [] => ([], [])
  | c :: s' =>
      if (c =? 58)%N then ([], s')
      else let (a, b) := cut_colon s' in (c :: a, b)
  end.

(** The entry a line contributes, if any. *)
Definition entry_of_line (line : str) : option (str * str) :=
  let line := strip line in
  if startswith line (lit "-") && str_in (lit ":") line then
    let (label, value) := cut_colon (skipn 1 line) in
    if truthy (strip label) && truthy (strip value)
    then Some (strip label, strip value)
    else None
  else None.

Definition add_line (d : dict) (line : str) : dict :=
  match entry_of_line line with
  | Some (k, v) => dict_set d k v
  | None => d
  end.

Definition equivalents_of_block (block : str) : dict :=
  fold_left add_line (lines block) [].


End BlockSpec.

(** ** A small concrete instance of the pipeline's collaborators

    Dates stand for [datetime] objects; only the string "2024-01-01" parses;
    the clock stays at 2023-12-26; the model answers every prompt with the
    same completion, whose "Original text:" section is not the input. *)
Module Fixture.
Import Py.

Definition parse_only_iso (s : str) : res date :=
  if str_eqb s (lit "2024-01-01") then Ok {| toordinal := 738886 |}
  else Raise ValueError.

Definition iso_constant (d : date) : res str := Ok (lit "2024-01-01T00:00:00").

Definition weekday_constant (d : date) (format : str) : res str := Ok (lit "Monday").

Definition clock (k : nat) : date := {| toordinal := 738880 |}.

Definition model (prompt : str) : res str :=
  Ok (lit "Original text: rewritten by the model Standardized text: on 2024-01-01 Extracted dates: the first of January, 2024-01-01").

End Fixture.

(** ** Further derived notions *)
Module Items.
Import Py BlockSpec.

(** How often one code point occurs in a string. *)
Fixpoint count_char (c : char) (s : str) : nat :=
  match s with
  | [] => 0
  | x :: s' => (if (x =? c)%N then 1 else 0) + count_char c s'
  end.

(** The entries of the lines of a block, in order, repeated labels kept. *)
Definition entries_of_lines (ls : list str) : list (str * str) :=
  flat_map (fun line => match entry_of_line line with
                        | Some e => [e]
                        | None => []
                        end) ls.

(** A line on which the loop of the first [_parse_response] fails: it
    holds a "-", so it is split, and no ":", so the split has one part. *)
Definition dash_without_colon (line : str) : bool :=
  str_in (lit "-") line && negb (str_in (lit ":") line).

(** What one turn of the loop of the first [_parse_response] records when
    it does not fail: for a line that holds a "-", the text before the
    first ":" without surrounding "-" and blanks, mapped to the trimmed
    text after it. *)
Definition first_loop_step (r : TimezoneAware.TzResult) (line : str)
  : TimezoneAware.TzResult :=
  if str_in (lit "-") line
  then TimezoneAware.set_equivalent r
         (strip_chars (fst (cut_colon line)) (lit "- "))
         (strip (snd (cut_colon line)))
  else r.

(** A question-answering chain that answers with the context it is given. *)
Definition echo_context (question date_context : str) : res str :=
  Ok date_context.

(** A model call that fails. *)
Definition model_down (prompt : str) : res str := Raise ExternalError.

End Items.

(** ** Facts about the Python runtime model *)
Module PyFacts.
Import Py Slices.

Lemma str_eqb_eq (a b : str) : str_eqb a b = true <-> a = b.
Proof.
  revert b; induction a as [|x a IH]; intros [|y b]; simpl; split;
    try discriminate; try reflexivity.
  - rewrite andb_true_iff, N.eqb_eq, IH. intros [-> ->]; reflexivity.
  - intros H; injection H as -> ->.
    rewrite N.eqb_refl; simpl. apply IH; reflexivity.
Qed.

Lemma str_eqb_refl (a : str) : str_eqb a a = true.
Proof. apply str_eqb_eq; reflexivity. Qed.

Lemma str_eqb_neq (a b : str) : str_eqb a b = false <-> a <> b.
Proof.
  split.
  - intros H E. apply str_eqb_eq in E. congruence.
  - intros H. destruct (str_eqb a b) eqn:E; [|reflexivity].
    apply str_eqb_eq in E. contradiction.
Qed.

Lemma truthy_false (s : str) : truthy s = false <-> s = [].
Proof. destruct s; simpl; split; congruence. Qed.

Lemma truthy_true (s : str) : truthy s = true <-> s <> [].
Proof. destruct s; simpl; split; congruence. Qed.

(** *** startswith and membership *)

Lemma startswith_nil (s : str) : startswith s [] = true.
Proof. destruct s; reflexivity. Qed.

Lemma startswith_app (p t : str) : startswith (p ++ t) p = true.
Proof.
  induction p as [|a p IH]; simpl; [destruct t; reflexivity|].
  rewrite N.eqb_refl; exact IH.
Qed.

Lemma startswith_inv (s p : str) :
  startswith s p = true -> exists t, s = p ++ t.
Proof.
  revert s; induction p as [|a p IH]; intros s H.
  - exists s; reflexivity.
  - destruct s as [|b s]; simpl in H; [discriminate|].
    apply andb_true_iff in H as [E H]. apply N.eqb_eq in E; subst b.
    destruct (IH _ H) as [t ->]. exists t; reflexivity.
Qed.

Lemma str_in_cons (sub : str) (c : char) (s : str) :
  str_in sub (c :: s) = startswith (c :: s) sub || str_in sub s.
Proof. reflexivity. Qed.

Lemma str_in_nil (sub : str) : sub <> [] -> str_in sub [] = false.
Proof. destruct sub; [congruence|reflexivity]. Qed.

Lemma str_in_app (sub a b : str) : str_in sub (a ++ sub ++ b) = true.
Proof.
  induction a as [|x a IH].
  - simpl app. destruct (sub ++ b) eqn:E.
    + simpl. destruct sub; [reflexivity|discriminate].
    + rewrite str_in_cons, <- E, startswith_app. reflexivity.
  - simpl app. rewrite str_in_cons, IH. apply orb_true_r.
Qed.

Lemma str_in_inv (sub s : str) :
  str_in sub s = true -> exists a b, s = a ++ sub ++ b.
Proof.
  induction s as [|c s IH]; intros H.
  - change (str_in sub []) with (startswith [] sub || false) in H.
    rewrite orb_false_r in H.
    apply startswith_inv in H as [t E]. exists [], t. exact E.
  - rewrite str_in_cons in H. apply orb_true_iff in H as [H|H].
    + apply startswith_inv in H as [t E]. exists [], t. exact E.
    + destruct (IH H) as (a & b & ->). exists (c :: a), b. reflexivity.
Qed.

(** *** The split scan *)

Lemma split_go_not_nil (sep : str) (m : Z) (k : nat) (s : str) :
  split_go sep m k s <> [].
Proof.
  revert m k; induction s as [|c s IH]; intros m k; cbn [split_go]; [discriminate|].
  destruct k; [|apply IH].
  destruct (negb (m =? 0)%Z && startswith (c :: s) sep); [discriminate|].
  specialize (IH m 0). destruct (split_go sep m 0 s); [congruence|discriminate].
Qed.

Lemma cons_hd_length (c : char) (l : list str) :
  l <> [] -> List.length (cons_hd c l) = List.length l.
Proof. destruct l; [congruence|reflexivity]. Qed.

Lemma split_go_skip (sep : str) (m : Z) (x s : str) :
  split_go sep m (List.length x) (x ++ s) = split_go sep m 0 s.
Proof. induction x as [|c x IH]; simpl; [reflexivity|exact IH]. Qed.

Lemma split_go_hit (sep : str) (m : Z) (s : str) :
  sep <> [] -> m <> 0%Z ->
  split_go sep m 0 (sep ++ s) = [] :: split_go sep (m - 1) 0 s.
Proof.
  intros Hsep Hm. destruct sep as [|c sep']; [congruence|].
  change ((c :: sep') ++ s) with (c :: (sep' ++ s)).
  cbn [split_go].
  change (c :: sep' ++ s) with ((c :: sep') ++ s).
  rewrite startswith_app.
  apply Z.eqb_neq in Hm. rewrite Hm. cbn [negb andb].
  f_equal.
  replace (List.length (c :: sep') - 1) with (List.length sep')
    by (cbn [List.length]; lia).
  apply split_go_skip.
Qed.

Lemma split_go_zero (sep : str) (s : str) : split_go sep 0 0 s = [s].
Proof.
  induction s as [|c s IH]; [reflexivity|].
  cbn [split_go]. cbn. rewrite IH. reflexivity.
Qed.

Lemma split_go_miss (sep : str) (m : Z) (s : str) :
  sep <> [] -> str_in sep s = false -> split_go sep m 0 s = [s].
Proof.
  intros Hsep. induction s as [|c s IH]; intros H; [reflexivity|].
  rewrite str_in_cons in H. apply orb_false_iff in H as [H1 H2].
  cbn [split_go]. rewrite H1, andb_false_r, (IH H2). reflexivity.
Qed.

(** When the first occurrence of [sep] starts right after [a], the first
    piece is [a] and the scan goes on behind that occurrence. *)
Lemma split_go_first (sep : str) (m : Z) (a b : str) :
  sep <> [] -> m <> 0%Z ->
  (forall a1 a2, a = a1 ++ a2 -> a2 <> [] -> startswith (a2 ++ sep ++ b) sep = false) ->
  split_go sep m 0 (a ++ sep ++ b) = a :: split_go sep (m - 1) 0 b.
Proof.
  intros Hsep Hm. induction a as [|x a IH]; intros H.
  - change ([] ++ sep ++ b) with (sep ++ b). apply split_go_hit; assumption.
  - change ((x :: a) ++ sep ++ b) with (x :: (a ++ sep ++ b)).
    cbn [split_go].
    change (x :: a ++ sep ++ b) with ((x :: a) ++ sep ++ b).
    rewrite (H [] (x :: a) eq_refl) by discriminate.
    rewrite andb_false_r, IH; [reflexivity|].
    intros a1 a2 -> Ha2. apply (H (x :: a1) a2); [reflexivity|assumption].
Qed.

Lemma split_go_len2 (sep : str) (m : Z) (s : str) :
  sep <> [] -> m <> 0%Z -> str_in sep s = true ->
  2 <= List.length (split_go sep m 0 s).
Proof.
  intros Hsep Hm. induction s as [|c s IH]; intros H.
  - rewrite str_in_nil in H by assumption. discriminate.
  - rewrite str_in_cons in H. cbn [split_go].
    destruct (startswith (c :: s) sep) eqn:E.
    + apply Z.eqb_neq in Hm. rewrite Hm. cbn [negb andb List.length].
      pose proof (split_go_not_nil sep (m - 1) (List.length sep - 1) s) as N.
      destruct (split_go sep (m - 1) (List.length sep - 1) s); [congruence|].
      cbn [List.length]. lia.
    + rewrite andb_false_r. simpl in H.
      rewrite cons_hd_length by apply split_go_not_nil. apply IH, H.
Qed.

Lemma unbordered_inv (sep : str) :
  unbordered sep = true ->
  exists h t, sep = h :: t /\ ~ In h t.
Proof.
  destruct sep as [|h t]; [discriminate|]. simpl. intros H.
  exists h, t. split; [reflexivity|]. intros I.
  apply negb_true_iff in H.
  assert (existsb (N.eqb h) t = true) as E.
  { apply existsb_exists. exists h. split; [assumption|apply N.eqb_refl]. }
  congruence.
Qed.

(** An unbordered [sep] that does not occur in [a] first occurs in
    [a ++ sep ++ b] right after [a]. *)
Lemma unbordered_first (sep a b : str) :
  unbordered sep = true -> str_in sep a = false ->
  forall a1 a2, a = a1 ++ a2 -> a2 <> [] -> startswith (a2 ++ sep ++ b) sep = false.
Proof.
  intros U Ha a1 a2 -> Ha2.
  destruct (startswith (a2 ++ sep ++ b) sep) eqn:E; [exfalso|reflexivity].
  apply startswith_inv in E as [u E].
  destruct (unbordered_inv _ U) as (h & t & -> & Hh).
  apply app_eq_app in E as [l [[E1 E2]|[E1 E2]]].
  - subst a2.
    rewrite (str_in_app (h :: t) a1 l) in Ha. discriminate.
  - destruct a2 as [|y a2]; [congruence|].
    injection E1 as <- ->.
    destruct l as [|z l].
    + rewrite app_nil_r in Ha.
      pose proof (str_in_app (h :: a2) a1 []) as C.
      rewrite app_nil_r in C. congruence.
    + simpl in E2. injection E2 as <- _.
      apply Hh. apply in_or_app. right. left. reflexivity.
Qed.

Lemma split_go_unbordered (sep : str) (m : Z) (a b : str) :
  unbordered sep = true -> m <> 0%Z -> str_in sep a = false ->
  split_go sep m 0 (a ++ sep ++ b) = a :: split_go sep (m - 1) 0 b.
Proof.
  intros U Hm Ha. apply split_go_first; try assumption.
  - destruct sep; [discriminate|discriminate].
  - apply unbordered_first; assumption.
Qed.

Lemma split_ok (s sep : str) :
  sep <> [] -> split s sep = Ok (split_go sep (-1) 0 s).
Proof. destruct sep; [congruence|reflexivity]. Qed.

Lemma split_max_ok (s sep : str) (m : Z) :
  sep <> [] -> split_max s sep m = Ok (split_go sep m 0 s).
Proof. destruct sep; [congruence|reflexivity]. Qed.

Lemma bind_ok {A B : Type} (a : A) (f : A -> res B) : bind (Ok a) f = f a.
Proof. reflexivity. Qed.

Lemma str_in_app_false (sub x y : str) :
  str_in sub (x ++ y) = false -> str_in sub x = false /\ str_in sub y = false.
Proof.
  intros H. split.
  - destruct (str_in sub x) eqn:E; [|reflexivity].
    apply str_in_inv in E as (a & b & ->).
    rewrite <- !app_assoc in H. rewrite str_in_app in H. discriminate.
  - destruct (str_in sub y) eqn:E; [|reflexivity].
    apply str_in_inv in E as (a & b & ->).
    rewrite app_assoc in H. rewrite str_in_app in H. discriminate.
Qed.

Lemma index_nth {A : Type} (l : list A) (i : nat) (d : A) :
  i < List.length l -> index l i = Ok (nth i l d).
Proof.
  intros H. unfold index.
  destruct (nth_error l i) eqn:E.
  - f_equal. symmetry. apply nth_error_nth. exact E.
  - apply nth_error_None in E. lia.
Qed.

(** *** The two slices taken around a marker *)

Lemma slice_after (r m : str) :
  m <> [] -> str_in m r = true ->
  bind (split r m) (fun a => index a 1) = Ok (after r m).
Proof.
  intros Hm H. rewrite split_ok by assumption. cbn [bind].
  unfold after. rewrite H. apply index_nth.
  apply split_go_len2; [assumption|discriminate|assumption].
Qed.

Lemma slice_after_k {B : Type} (r m : str) (k : str -> res B) :
  m <> [] -> str_in m r = true ->
  bind (split r m) (fun a => bind (index a 1) k) = k (after r m).
Proof.
  intros Hm H. rewrite split_ok by assumption. cbn [bind].
  unfold after. rewrite H.
  rewrite (index_nth (A:=str) (split_go m (-1) 0 r) 1 []); [reflexivity|].
  apply split_go_len2; [assumption|discriminate|assumption].
Qed.

Lemma slice_before {B : Type} (s m : str) (k : str -> res B) :
  m <> [] ->
  bind (split s m) (fun c => bind (index c 0) k) = k (before s m).
Proof.
  intros Hm. rewrite split_ok by assumption. cbn [bind].
  rewrite (index_nth (A:=str) (split_go m (-1) 0 s) 0 []).
  - reflexivity.
  - pose proof (split_go_not_nil m (-1) 0 s) as N.
    destruct (split_go m (-1) 0 s); [congruence|cbn; lia].
Qed.

Lemma after_absent (r m : str) : str_in m r = false -> after r m = [].
Proof. intros H. unfold after. rewrite H. reflexivity. Qed.

Lemma after_once (m r pre post : str) :
  unbordered m = true -> occurs_once m r pre post -> after r m = post.
Proof.
  intros U (-> & Hpre & Hpost). unfold after.
  rewrite str_in_app, split_go_unbordered by (assumption || discriminate).
  rewrite split_go_miss; [reflexivity| |assumption].
  destruct m; discriminate.
Qed.

Lemma before_first (m pre post : str) :
  unbordered m = true -> str_in m pre = false ->
  before (pre ++ m ++ post) m = pre.
Proof.
  intros U Hpre. unfold before.
  rewrite split_go_unbordered by (assumption || discriminate). reflexivity.
Qed.

Lemma before_absent (m s : str) :
  m <> [] -> str_in m s = false -> before s m = s.
Proof.
  intros Hm H. unfold before. rewrite split_go_miss by assumption. reflexivity.
Qed.

(** *** Trimming *)

Lemma lstrip_by_head (p : char -> bool) (s : str) :
  match lstrip_by p s with
  | [] => True
  | c :: _ => p c = false
  end.
Proof.
  induction s as [|c s IH]; cbn [lstrip_by]; [exact I|].
  destruct (p c) eqn:E; [exact IH|exact E].
Qed.

Lemma lstrip_by_clean (p : char -> bool) (s : str) :
  match s with
  | [] => True
  | c :: _ => p c = false
  end -> lstrip_by p s = s.
Proof. destruct s as [|c s]; cbn [lstrip_by]; [reflexivity|]. intros ->. reflexivity. Qed.

Lemma lstrip_by_idem (p : char -> bool) (s : str) :
  lstrip_by p (lstrip_by p s) = lstrip_by p s.
Proof. apply lstrip_by_clean, lstrip_by_head. Qed.

Lemma lstrip_by_snoc (p : char -> bool) (l : str) (c : char) :
  p c = false -> lstrip_by p (l ++ [c]) = lstrip_by p l ++ [c].
Proof.
  intros H. induction l as [|x l IH]; cbn [lstrip_by app].
  - rewrite H. reflexivity.
  - destruct (p x); [exact IH|reflexivity].
Qed.

Lemma rstrip_by_idem (p : char -> bool) (s : str) :
  rstrip_by p (rstrip_by p s) = rstrip_by p s.
Proof. unfold rstrip_by. rewrite rev_involutive, lstrip_by_idem. reflexivity. Qed.

Lemma rstrip_by_head (p : char -> bool) (s : str) :
  match s with
  | [] => True
  | c :: _ => p c = false
  end ->
  match rstrip_by p s with
  | [] => True
  | c :: _ => p c = false
  end.
Proof.
  destruct s as [|c s]; [intros _; exact I|]. intros H.
  unfold rstrip_by. cbn [rev].
  rewrite lstrip_by_snoc by assumption.
  rewrite rev_app_distr. cbn. exact H.
Qed.

Lemma strip_by_idem (p : char -> bool) (s : str) :
  strip_by p (strip_by p s) = strip_by p s.
Proof.
  unfold strip_by.
  rewrite (lstrip_by_clean p (rstrip_by p (lstrip_by p s))).
  - apply rstrip_by_idem.
  - apply rstrip_by_head, lstrip_by_head.
Qed.

Lemma strip_idem (s : str) : strip (strip s) = strip s.
Proof. apply strip_by_idem. Qed.

(** *** Dictionaries *)

Lemma existsb_str_eqb (k : str) (l : list str) :
  existsb (str_eqb k) l = true <-> In k l.
Proof.
  rewrite existsb_exists. split.
  - intros (x & I & E). apply str_eqb_eq in E. subst x. exact I.
  - intros I. exists k. split; [exact I|apply str_eqb_refl].
Qed.

Lemma keys_dict_set (d : dict) (k v : str) :
  keys (dict_set d k v) =
  if existsb (str_eqb k) (keys d) then keys d else keys d ++ [k].
Proof.
  induction d as [|[k' v'] d IH]; [reflexivity|].
  cbn [dict_set keys map fst existsb].
  destruct (str_eqb k' k) eqn:E.
  - apply str_eqb_eq in E. subst k'. rewrite str_eqb_refl. reflexivity.
  - assert (str_eqb k k' = false) as E'.
    { apply str_eqb_neq. apply str_eqb_neq in E. congruence. }
    rewrite E'. cbn [orb map fst]. fold (keys d). fold (keys (dict_set d k v)).
    rewrite IH. destruct (existsb (str_eqb k) (keys d)); reflexivity.
Qed.



(** A literal of the source is not the empty string. *)
Ltac lit_ne :=
  let X := fresh "X" in intro X; vm_compute in X; discriminate X.

End PyFacts.

(** ** Facts about src/dateformatter_llm.py *)
Module DateAwareFacts.
Import Py Slices PyFacts DateAware.

(** One step through a marker test: a slice taken, a value bound. *)
Ltac slice_step :=
  first [ rewrite slice_after_k by (lit_ne || assumption)
        | rewrite slice_before by lit_ne
        | rewrite bind_ok
        | progress cbv zeta ].

(** The parse never raises, and each field is a function of the response
    and of its own marker test alone. *)
Lemma parse_date_response_closed (response : str) :
  _parse_date_response response =
  Ok {| original_text :=
          if str_in (lit "Original text:") response
          then strip (before (after response (lit "Original text:"))
                             (lit "Standardized text:"))
          else [];
        standardized_text :=
          if str_in (lit "Standardized text:") response
          then strip (before (after response (lit "Standardized text:"))
                             (lit "Extracted dates:"))
          else [];
        extracted_dates :=
          if str_in (lit "Extracted dates:") response
          then dates_of (strip (after response (lit "Extracted dates:")))
          else [] |}.
Proof.
  unfold _parse_date_response, dates_of.
  destruct (str_in (lit "Original text:") response) eqn:E1;
  destruct (str_in (lit "Standardized text:") response) eqn:E2;
  destruct (str_in (lit "Extracted dates:") response) eqn:E3;
  cbv beta iota;
  repeat slice_step;
  try (destruct (truthy (strip (after response (lit "Extracted dates:")))) eqn:T;
       [rewrite split_ok by lit_ne|]; repeat rewrite bind_ok);
  reflexivity.
Qed.

Lemma occurs_once_in (m r pre post : str) :
  occurs_once m r pre post -> str_in m r = true.
Proof. intros (-> & _ & _). apply str_in_app. Qed.



(** C4: the text after the marker "Extracted dates:" is trimmed, split on
    "," and each token trimmed; an empty trimmed remainder gives the empty
    list; the two examples of the specification. *)
Theorem C4_extracted_dates_comma_split (pre rest : str) :
  str_in (lit "Extracted dates:") pre = false ->
  str_in (lit "Extracted dates:") rest = false ->
  exists result,
    _parse_date_response (pre ++ lit "Extracted dates:" ++ rest) = Ok result /\
    (strip rest = [] -> extracted_dates result = []) /\
    (strip rest <> [] ->
     exists tokens,
       split (strip rest) (lit ",") = Ok tokens /\
       extracted_dates result = map strip tokens).
Proof.
  intros Hpre Hrest.
  eexists. split; [apply parse_date_response_closed|].
  cbn [extracted_dates]. rewrite str_in_app.
  rewrite (after_once (lit "Extracted dates:") _ pre rest);
    [|reflexivity|repeat split; assumption].
  unfold dates_of. split.
  - intros ->. reflexivity.
  - intros N. apply truthy_true in N. rewrite N.
    eexists. split; [apply split_ok; lit_ne|reflexivity].
Qed.

(** C4 at the first example of the specification. *)
Lemma C4_extracted_dates_witness :
  exists result,
    _parse_date_response (lit "Extracted dates: 2023-03-15, 2023-03-20") = Ok result /\
    extracted_dates result = [lit "2023-03-15"; lit "2023-03-20"].
Proof.
  destruct (C4_extracted_dates_comma_split [] (lit " 2023-03-15, 2023-03-20"))
    as (result & E & _ & N); [reflexivity|reflexivity|].
  exists result. split; [exact E|].
  destruct N as (tokens & T & ->); [vm_compute; discriminate|].
  vm_compute in T. injection T as <-. reflexivity.
Defined.

(** With the middle marker missing, its field is empty and the field before
    it runs to the end of the text. *)
Example missing_middle_marker :
  _parse_date_response (lit "Original text: on 15 March Extracted dates: 2023-03-15") =
  Ok {| original_text := lit "on 15 March Extracted dates: 2023-03-15";
        standardized_text := [];
        extracted_dates := [lit "2023-03-15"] |}.
Proof. vm_compute. reflexivity. Qed.

Example extracted_dates_two_elements :
  _parse_date_response (lit "Extracted dates: 2023-03-15, 2023-03-20") =
  Ok {| original_text := []; standardized_text := [];
        extracted_dates := [lit "2023-03-15"; lit "2023-03-20"] |}.
Proof. vm_compute. reflexivity. Qed.

Example extracted_dates_empty_remainder :
  _parse_date_response (lit "Extracted dates:") =
  Ok {| original_text := []; standardized_text := []; extracted_dates := [] |}.
Proof. vm_compute. reflexivity. Qed.

(** C5, as stated, fails: all three markers are present in order, yet both
    text fields are empty, because only white space stands between the
    markers. *)
Lemma C5_counterexample_empty_fields :
  lit "Original text: Standardized text: Extracted dates: 2023-03-15" =
    [] ++ lit "Original text:" ++ lit " " ++ lit "Standardized text:" ++ lit " "
       ++ lit "Extracted dates:" ++ lit " 2023-03-15" /\
  _parse_date_response
    (lit "Original text: Standardized text: Extracted dates: 2023-03-15") =
  Ok {| original_text := []; standardized_text := [];
        extracted_dates := [lit "2023-03-15"] |}.
Proof. split; vm_compute; reflexivity. Qed.

(** C5, amended: when each of the three markers occurs exactly once, in
    order, the two text fields are the trimmed texts between consecutive
    markers, and the date list is the comma-split, each token trimmed, of
    the trimmed text after the last marker, or empty when that text is. *)
Theorem C5_all_markers_in_order (r a b c d : str) :
  occurs_once (lit "Original text:") r a
    (b ++ lit "Standardized text:" ++ c ++ lit "Extracted dates:" ++ d) ->
  occurs_once (lit "Standardized text:") r
    (a ++ lit "Original text:" ++ b) (c ++ lit "Extracted dates:" ++ d) ->
  occurs_once (lit "Extracted dates:") r
    (a ++ lit "Original text:" ++ b ++ lit "Standardized text:" ++ c) d ->
  _parse_date_response r =
  Ok {| original_text := strip b;
        standardized_text := strip c;
        extracted_dates :=
          if truthy (strip d)
          then map strip (split_go (lit ",") (-1) 0 (strip d))
          else [] |}.
Proof.
  intros H1 H2 H3.
  rewrite parse_date_response_closed.
  rewrite (occurs_once_in _ _ _ _ H1), (occurs_once_in _ _ _ _ H2),
    (occurs_once_in _ _ _ _ H3).
  rewrite (after_once (lit "Original text:") _ _ _ eq_refl H1),
    (after_once (lit "Standardized text:") _ _ _ eq_refl H2),
    (after_once (lit "Extracted dates:") _ _ _ eq_refl H3).
  destruct H2 as (_ & P2 & _). destruct H3 as (_ & P3 & _).
  apply str_in_app_false in P2 as [_ P2].
  apply str_in_app_false in P2 as [_ P2].
  do 4 apply str_in_app_false in P3 as [_ P3].
  rewrite !before_first by (reflexivity || assumption).
  reflexivity.
Qed.

(** C5, amended, at a well-formed completion. *)
Lemma C5_all_markers_witness :
  _parse_date_response
    (lit "Original text: due 15 March Standardized text: due 2023-03-15 Extracted dates: 2023-03-15") =
  Ok {| original_text := lit "due 15 March";
        standardized_text := lit "due 2023-03-15";
        extracted_dates := [lit "2023-03-15"] |}.
Proof.
  rewrite (C5_all_markers_in_order
             (lit "Original text: due 15 March Standardized text: due 2023-03-15 Extracted dates: 2023-03-15")
             [] (lit " due 15 March ") (lit " due 2023-03-15 ") (lit " 2023-03-15")).
  - vm_compute. reflexivity.
  - repeat split; vm_compute; reflexivity.
  - repeat split; vm_compute; reflexivity.
  - repeat split; vm_compute; reflexivity.
Defined.

(** C9: a remainder that is not empty but ends in a comma leaves an empty
    string in the date list. *)
Theorem C9_trailing_comma_keeps_empty_token :
  exists response result,
    str_in (lit "Extracted dates:") response = true /\
    strip (after response (lit "Extracted dates:")) = lit "2023-03-15," /\
    _parse_date_response response = Ok result /\
    extracted_dates result = [lit "2023-03-15"; []] /\
    In [] (extracted_dates result).
Proof.
  exists (lit "Extracted dates: 2023-03-15,").
  eexists. split; [vm_compute; reflexivity|].
  split; [vm_compute; reflexivity|].
  split; [vm_compute; reflexivity|].
  cbn [extracted_dates]. split; [reflexivity|].
  right. left. reflexivity.
Qed.

Section PipelineFacts.

Variable datetime : Type.
Variable dt_date : datetime -> date.
Variable isoformat : datetime -> res str.
Variable strftime : datetime -> str -> res str.
Variable dateutil_parse : str -> res datetime.
Variable now : nat -> date.
Variable date_parser_chain : str -> res str.

Local Abbreviation describe := (describe datetime dt_date isoformat strftime dateutil_parse now).
Local Abbreviation analyze := (analyze datetime dt_date isoformat strftime dateutil_parse now).
Local Abbreviation successes := (successes datetime dt_date isoformat strftime dateutil_parse now).
Local Abbreviation process_text_with_dates :=
  (process_text_with_dates datetime dt_date isoformat strftime dateutil_parse now
     date_parser_chain).

(** C6: the relative-day description classifies the difference in whole
    days between the parsed date and the current local date. *)
Theorem C6_relative_description_classifies_day_difference
  (today : date) (date_obj : datetime) :
  let n := (toordinal (dt_date date_obj) - toordinal today)%Z in
  let description := _get_relative_date_description datetime dt_date today date_obj in
  (n = 0%Z -> description = lit "today") /\
  (n = 1%Z -> description = lit "tomorrow") /\
  (n = (-1)%Z -> description = lit "yesterday") /\
  ((n > 1)%Z -> description = lit "in " ++ str_of_int n ++ lit " days") /\
  ((n < -1)%Z -> description = str_of_int (Z.abs n) ++ lit " days ago").
Proof.
  intros n description. subst description.
  unfold _get_relative_date_description, date_sub. cbn [days]. fold n.
  repeat split; intros H.
  - rewrite H. reflexivity.
  - rewrite H. reflexivity.
  - rewrite H. reflexivity.
  - destruct (Z.eqb_spec n 0); [lia|].
    destruct (Z.eqb_spec n 1); [lia|].
    destruct (Z.eqb_spec n (-1)); [lia|].
    destruct (Z.gtb_spec n 0); [reflexivity|lia].
  - destruct (Z.eqb_spec n 0); [lia|].
    destruct (Z.eqb_spec n 1); [lia|].
    destruct (Z.eqb_spec n (-1)); [lia|].
    destruct (Z.gtb_spec n 0); [lia|reflexivity].
Qed.

Lemma analyze_dates (k : nat) (extracted : list str) (info : EnhancedInfo) :
  dates (analyze k extracted info) = dates info ++ successes k extracted.
Proof.
  revert k info. induction extracted as [|date_str rest IH]; intros k info.
  - cbn. rewrite app_nil_r. reflexivity.
  - cbn [DateAware.analyze DateAware.successes].
    destruct describe as [entry|e].
    + rewrite IH. cbn [dates append_date]. rewrite <- app_assoc. reflexivity.
    + apply IH.
Qed.

Lemma analyze_original (k : nat) (extracted : list str) (info : EnhancedInfo) :
  original (analyze k extracted info) = original info.
Proof.
  revert k info. induction extracted as [|date_str rest IH]; intros k info.
  - reflexivity.
  - cbn [DateAware.analyze].
    destruct describe as [entry|e]; rewrite IH; reflexivity.
Qed.

Lemma describe_raises (k : nat) (date_str : str) (e : exn) :
  dateutil_parse date_str = Raise e -> describe k date_str = Raise e.
Proof. intros H. unfold DateAware.describe. rewrite H. reflexivity. Qed.

Lemma successes_length (k : nat) (extracted : list str) :
  List.length (successes k extracted) <= List.length extracted.
Proof.
  revert k. induction extracted as [|date_str rest IH]; intros k.
  - apply Nat.le_refl.
  - cbn [DateAware.successes List.length].
    specialize (IH (S k)).
    destruct describe; cbn [List.length]; lia.
Qed.

Lemma successes_shorter (k : nat) (extracted : list str) (date_str : str) (e : exn) :
  In date_str extracted -> dateutil_parse date_str = Raise e ->
  List.length (successes k extracted) < List.length extracted.
Proof.
  revert k. induction extracted as [|x rest IH]; intros k I F.
  - destruct I.
  - cbn [DateAware.successes List.length].
    destruct I as [->|I].
    + rewrite (describe_raises _ _ _ F).
      pose proof (successes_length (S k) rest). lia.
    + specialize (IH (S k) I F).
      destruct describe; cbn [List.length]; lia.
Qed.

Lemma successes_origin (k : nat) (extracted : list str) (entry : DateEntry) :
  In entry (successes k extracted) ->
  exists j date_str date_obj,
    In date_str extracted /\ dateutil_parse date_str = Ok date_obj /\
    describe j date_str = Ok entry.
Proof.
  revert k. induction extracted as [|x rest IH]; intros k I.
  - destruct I.
  - cbn [DateAware.successes] in I.
    destruct (describe k x) as [en|e] eqn:D.
    + destruct I as [<-|I].
      * exists k, x.
        unfold DateAware.describe in D.
        destruct (dateutil_parse x) as [date_obj|] eqn:P; [|discriminate].
        exists date_obj. repeat split; [left; reflexivity|].
        unfold DateAware.describe. rewrite P. exact D.
      * destruct (IH _ I) as (j & s & o & ? & ? & ?).
        exists j, s, o. repeat split; [right|..]; assumption.
    + destruct (IH _ I) as (j & s & o & ? & ? & ?).
      exists j, s, o. repeat split; [right|..]; assumption.
Qed.

(** C7: the enrichment pass returns whenever the model call returned; its
    list holds one entry per string whose handling succeeded, in order, so
    it is never longer than the extracted list, every entry comes from a
    string that parsed, and a string that fails to parse leaves no entry. *)
Theorem C7_unparseable_dates_are_dropped (text response : str) :
  date_parser_chain text = Ok response ->
  exists date_info info,
    _parse_date_response response = Ok date_info /\
    process_text_with_dates text = Ok info /\
    dates info = successes 0 (extracted_dates date_info) /\
    List.length (dates info) <= List.length (extracted_dates date_info) /\
    (forall entry, In entry (dates info) ->
       exists k date_str date_obj,
         In date_str (extracted_dates date_info) /\
         dateutil_parse date_str = Ok date_obj /\
         describe k date_str = Ok entry) /\
    (forall date_str e,
       In date_str (extracted_dates date_info) ->
       dateutil_parse date_str = Raise e ->
       List.length (dates info) < List.length (extracted_dates date_info)).
Proof.
  intros H.
  unfold DateAware.process_text_with_dates, extract_dates. rewrite H.
  rewrite bind_ok, parse_date_response_closed, bind_ok.
  eexists. eexists. split; [reflexivity|]. split; [reflexivity|].
  rewrite analyze_dates. cbn [dates app].
  split; [reflexivity|]. split; [apply successes_length|].
  split.
  - intros entry I. eapply successes_origin; eassumption.
  - intros date_str e I F. eapply successes_shorter; eassumption.
Qed.

(** C10: the field "original" of the returned record is the caller's text,
    whatever completion the model returned. *)
Theorem C10_original_is_the_input_text (text completion : str) :
  date_parser_chain text = Ok completion ->
  exists info,
    process_text_with_dates text = Ok info /\ original info = text.
Proof.
  intros H.
  unfold DateAware.process_text_with_dates, extract_dates. rewrite H.
  rewrite bind_ok, parse_date_response_closed, bind_ok.
  eexists. split; [reflexivity|].
  rewrite analyze_original. reflexivity.
Qed.

End PipelineFacts.

(** C6 six days ahead of the clock and three days behind it. *)
Lemma C6_relative_description_witness :
  _get_relative_date_description date (fun d => d)
    {| toordinal := 738880 |} {| toordinal := 738886 |} = lit "in 6 days" /\
  _get_relative_date_description date (fun d => d)
    {| toordinal := 738880 |} {| toordinal := 738877 |} = lit "3 days ago".
Proof.
  split.
  - pose proof (C6_relative_description_classifies_day_difference
                  date (fun d => d) {| toordinal := 738880 |} {| toordinal := 738886 |})
      as H.
    cbv zeta in H. destruct H as (_ & _ & _ & H & _).
    rewrite H; [vm_compute; reflexivity|cbn; lia].
  - pose proof (C6_relative_description_classifies_day_difference
                  date (fun d => d) {| toordinal := 738880 |} {| toordinal := 738877 |})
      as H.
    cbv zeta in H. destruct H as (_ & _ & _ & _ & H).
    rewrite H; [vm_compute; reflexivity|cbn; lia].
Defined.

(** C7 with two extracted strings of which one parses. *)
Lemma C7_unparseable_dates_witness :
  exists info,
    process_text_with_dates date (fun d => d) Fixture.iso_constant
      Fixture.weekday_constant Fixture.parse_only_iso Fixture.clock Fixture.model
      (lit "We meet on the first of January") = Ok info /\
    List.length (dates info) < 2.
Proof.
  destruct (C7_unparseable_dates_are_dropped
              date (fun d => d) Fixture.iso_constant Fixture.weekday_constant
              Fixture.parse_only_iso Fixture.clock Fixture.model
              (lit "We meet on the first of January") _ eq_refl)
    as (date_info & info & P & E & _ & _ & _ & F).
  exists info. split; [exact E|].
  vm_compute in P. injection P as <-.
  apply (F (lit "the first of January") ValueError).
  - left. vm_compute. reflexivity.
  - vm_compute. reflexivity.
Defined.

(** C10 with a model that rewrites the "Original text:" section. *)
Lemma C10_original_witness :
  exists info,
    process_text_with_dates date (fun d => d) Fixture.iso_constant
      Fixture.weekday_constant Fixture.parse_only_iso Fixture.clock Fixture.model
      (lit "We meet on the first of January") = Ok info /\
    original info = lit "We meet on the first of January".
Proof.
  exact (C10_original_is_the_input_text
           date (fun d => d) Fixture.iso_constant Fixture.weekday_constant
           Fixture.parse_only_iso Fixture.clock Fixture.model
           (lit "We meet on the first of January") _ eq_refl).
Defined.

End DateAwareFacts.

(** ** Facts about src/timezone.py *)
Module TimezoneFacts.
Import Py Slices BlockSpec PyFacts TimezoneAware.

(** *** Lines and the first colon *)

Lemma lines_split (s : str) (m : Z) :
  (m < 0)%Z -> split_go nl m 0 s = lines s.
Proof.
  revert m. induction s as [|c s IH]; intros m Hm; [reflexivity|].
  cbn [split_go lines]. unfold nl at 1. cbn [startswith].
  rewrite startswith_nil.
  rewrite andb_true_r, (N.eqb_sym 10 c).
  destruct (Z.eqb_spec m 0); [lia|]. cbn [negb andb].
  destruct (c =? 10)%N.
  - cbn. f_equal. apply IH. lia.
  - f_equal. apply IH. exact Hm.
Qed.

Lemma str_in_colon_cons (c : char) (s : str) :
  str_in (lit ":") (c :: s) = (c =? 58)%N || str_in (lit ":") s.
Proof.
  rewrite str_in_cons. change (lit ":") with [58%N]. cbn [startswith].
  rewrite startswith_nil.
  rewrite andb_true_r, (N.eqb_sym 58 c). reflexivity.
Qed.

Lemma split_colon_once (s : str) :
  str_in (lit ":") s = true ->
  split_go (lit ":") 1 0 s = [fst (cut_colon s); snd (cut_colon s)].
Proof.
  induction s as [|c s IH]; intros H; [discriminate|].
  rewrite str_in_colon_cons in H.
  cbn [split_go cut_colon]. change (lit ":") with [58%N]. cbn [startswith].
  rewrite startswith_nil.
  rewrite andb_true_r, (N.eqb_sym 58 c).
  destruct (c =? 58)%N.
  - cbn. rewrite split_go_zero. reflexivity.
  - cbn [orb] in H. cbn [negb andb Z.eqb]. change (lit ":") with [58%N] in IH.
    rewrite (IH H). destruct (cut_colon s). reflexivity.
Qed.

Lemma cut_colon_spec (s : str) :
  str_in (lit ":") s = true ->
  s = fst (cut_colon s) ++ lit ":" ++ snd (cut_colon s) /\
  str_in (lit ":") (fst (cut_colon s)) = false.
Proof.
  induction s as [|c s IH]; intros H; [discriminate|].
  rewrite str_in_colon_cons in H. cbn [cut_colon].
  destruct (c =? 58)%N eqn:E.
  - apply N.eqb_eq in E. subst c. split; reflexivity.
  - cbn [orb] in H. destruct (IH H) as [E1 E2].
    destruct (cut_colon s) as [a b]. cbn [fst snd] in *.
    split; [rewrite E1 at 1; reflexivity|].
    rewrite str_in_colon_cons, E, E2. reflexivity.
Qed.

Lemma cut_colon_unique (a b : str) :
  str_in (lit ":") a = false -> cut_colon (a ++ lit ":" ++ b) = (a, b).
Proof.
  induction a as [|c a IH]; intros H; [reflexivity|].
  rewrite str_in_colon_cons in H. apply orb_false_iff in H as [E H].
  cbn [app cut_colon]. rewrite E, (IH H). reflexivity.
Qed.

Lemma dash_then_colon (l : str) :
  startswith l (lit "-") = true -> str_in (lit ":") l = true ->
  str_in (lit ":") (skipn 1 l) = true.
Proof.
  intros D C. apply startswith_inv in D as [t ->].
  change (lit "-" ++ t) with (45%N :: t) in *.
  rewrite str_in_colon_cons in C. exact C.
Qed.

(** The entry of a line, by the shape of the trimmed line. *)
Lemma entry_of_line_spec (line k v : str) :
  entry_of_line line = Some (k, v) <->
  exists label value,
    strip line = lit "-" ++ label ++ lit ":" ++ value /\
    str_in (lit ":") label = false /\
    k = strip label /\ v = strip value /\ k <> [] /\ v <> [].
Proof.
  unfold entry_of_line. split.
  - destruct (startswith (strip line) (lit "-")) eqn:D; [|discriminate].
    destruct (str_in (lit ":") (strip line)) eqn:C; [|discriminate].
    cbn [andb].
    pose proof (dash_then_colon _ D C) as C'.
    destruct (cut_colon_spec _ C') as [E N].
    apply startswith_inv in D as [t D]. rewrite D in *.
    change (skipn 1 (lit "-" ++ t)) with t in *.
    destruct (cut_colon t) as [a b]. cbn [fst snd] in *.
    destruct (truthy (strip a)) eqn:Ta; [|discriminate].
    destruct (truthy (strip b)) eqn:Tb; [|discriminate].
    cbn [andb]. intros H. injection H as <- <-.
    exists a, b. rewrite E at 1.
    repeat split; try assumption; apply truthy_true; assumption.
  - intros (label & value & E & N & -> & -> & Kl & Kv).
    rewrite E.
    change (lit "-" ++ label ++ lit ":" ++ value)
      with (45%N :: (label ++ lit ":" ++ value)).
    change (startswith (45%N :: label ++ lit ":" ++ value) (lit "-"))
      with (startswith (label ++ lit ":" ++ value) []).
    rewrite startswith_nil.
    rewrite str_in_colon_cons, str_in_app, orb_true_r. cbn [andb skipn].
    rewrite cut_colon_unique by assumption.
    apply truthy_true in Kl, Kv. rewrite Kl, Kv. reflexivity.
Qed.

Lemma entry_of_line_unqualified (line : str) :
  startswith (strip line) (lit "-") && str_in (lit ":") (strip line) = false ->
  entry_of_line line = None.
Proof. intros H. unfold entry_of_line. rewrite H. reflexivity. Qed.

(** *** The [try] block of the second definition *)

Lemma se_bind_lift_ok {A B : Type} (a : A) (f : A -> SE B) (s : TzResult) :
  se_bind (se_lift (Ok a)) f s = f a s.
Proof. reflexivity. Qed.

Lemma se_bind_modify {B : Type} (g : TzResult -> TzResult) (f : unit -> SE B)
  (s : TzResult) :
  se_bind (se_modify g) f s = f tt (g s).
Proof. reflexivity. Qed.

Lemma part_after (r m : str) :
  m <> [] ->
  (if str_in m r then bind (split r m) (fun a => index a 1) else Ok []) =
  Ok (after r m).
Proof.
  intros Hm. destruct (str_in m r) eqn:E.
  - apply slice_after; assumption.
  - rewrite after_absent by assumption. reflexivity.
Qed.

Lemma clean_before (p m : str) :
  m <> [] ->
  (if truthy p
   then bind (split p m) (fun a => bind (index a 0) (fun b => Ok (strip b)))
   else Ok []) = Ok (strip (before p m)).
Proof.
  intros Hm. destruct p as [|c p]; [reflexivity|].
  cbn [truthy]. apply slice_before. assumption.
Qed.

(** One turn of the loop records the entry of the line, if it has one, and
    raises nothing. *)
Lemma equivalents_line_closed (line : str) (s : TzResult) :
  equivalents_line line s =
  (match entry_of_line line with
   | Some (k, v) => set_equivalent s k v
   | None => s
   end, Ok tt).
Proof.
  unfold equivalents_line, entry_of_line.
  destruct (startswith (strip line) (lit "-")) eqn:D; [|reflexivity].
  destruct (str_in (lit ":") (strip line)) eqn:C; [|reflexivity].
  cbn [andb].
  pose proof (dash_then_colon _ D C) as C'.
  unfold except_ValueError.
  rewrite split_max_ok by lit_ne. rewrite se_bind_lift_ok.
  rewrite (split_colon_once _ C'). cbn [unpack2]. rewrite se_bind_lift_ok.
  destruct (cut_colon (skipn 1 (strip line))) as [a b]. cbn [fst snd].
  destruct (truthy (strip a) && truthy (strip b)); reflexivity.
Qed.

Lemma for_each_lines (ls : list str) (s : TzResult) :
  for_each ls equivalents_line s =
  ({| original := original s;
      detected_timezone := detected_timezone s;
      standardized := standardized s;
      global_equivalents := fold_left add_line ls (global_equivalents s) |},
   Ok tt).
Proof.
  revert s. induction ls as [|line ls IH]; intros s.
  - destruct s; reflexivity.
  - cbn [for_each fold_left]. unfold se_bind.
    rewrite equivalents_line_closed, IH.
    change (add_line (global_equivalents s) line)
      with (match entry_of_line line with
            | Some (k, v) => dict_set (global_equivalents s) k v
            | None => global_equivalents s
            end).
    destruct (entry_of_line line) as [[k v]|]; reflexivity.
Qed.

(** The second [_parse_response] in closed form: the [try] block runs to
    its end for every response. *)
Lemma try_block_closed (response : str) :
  try_block response empty_result =
  ({| original :=
        strip (before (after response (lit "Original:")) (lit "Detected Timezone:"));
      detected_timezone :=
        strip (before (after response (lit "Detected Timezone:"))
                      (lit "Standardized (ISO 8601):"));
      standardized :=
        strip (before (after response (lit "Standardized (ISO 8601):"))
                      (lit "Global Equivalents:"));
      global_equivalents :=
        equivalents_of_block (after response (lit "Global Equivalents:")) |},
   Ok tt).
Proof.
  unfold try_block.
  rewrite !part_after by lit_ne.
  repeat first [ rewrite se_bind_lift_ok
               | rewrite se_bind_modify
               | rewrite clean_before by lit_ne ].
  destruct (after response (lit "Global Equivalents:")) as [|c block] eqn:E.
  - reflexivity.
  - cbn [truthy]. rewrite split_ok by lit_ne. rewrite se_bind_lift_ok.
    rewrite lines_split by lia. rewrite for_each_lines. reflexivity.
Qed.

Lemma parse_response_closed (response : str) :
  _parse_response response =
  ({| original :=
        strip (before (after response (lit "Original:")) (lit "Detected Timezone:"));
      detected_timezone :=
        strip (before (after response (lit "Detected Timezone:"))
                      (lit "Standardized (ISO 8601):"));
      standardized :=
        strip (before (after response (lit "Standardized (ISO 8601):"))
                      (lit "Global Equivalents:"));
      global_equivalents :=
        equivalents_of_block (after response (lit "Global Equivalents:")) |},
   None).
Proof. unfold _parse_response. rewrite try_block_closed. reflexivity. Qed.



(** The second definition never raises and logs no warning: its [try]
    block runs to the end on every completion text. *)
Theorem parse_response_never_raises (response : str) :
  exists result, _parse_response response = (result, None).
Proof. eexists. apply parse_response_closed. Qed.

(** C1 at a failing input of the first definition: a line of the block that
    holds a "-" and no ":" makes [tz, dt = line.split(":", 1)] raise
    ValueError, which nothing catches. *)
Theorem C1_first_definition_raises_on_dash_line_without_colon :
  V1._parse_response
    (lit "Global Equivalents:" ++ nl ++ lit "- UTC: 2024-03-15T08:45:00+00:00"
       ++ nl ++ lit "- [Other relevant timezones...]") = Raise ValueError /\
  _parse_response
    (lit "Global Equivalents:" ++ nl ++ lit "- UTC: 2024-03-15T08:45:00+00:00"
       ++ nl ++ lit "- [Other relevant timezones...]") =
  ({| original := []; detected_timezone := []; standardized := [];
      global_equivalents := [(lit "UTC", lit "2024-03-15T08:45:00+00:00")] |},
   None).
Proof. split; vm_compute; reflexivity. Qed.

(** The first definition records a line that merely holds a "-" somewhere,
    and records empty values. *)
Example first_definition_records_line_without_leading_dash :
  V1._parse_response (lit "Global Equivalents:" ++ nl ++ lit "Note: see 2024-03-15") =
  Ok {| original := []; detected_timezone := []; standardized := [];
        global_equivalents := [(lit "Note", lit "see 2024-03-15")] |}.
Proof. vm_compute. reflexivity. Qed.

(** C2, as stated, fails: a line of the block that starts with a blank, not
    with "-", still contributes an entry, because each line is trimmed
    before it is tested. *)
Lemma C2_counterexample_indented_line :
  In (lit "  - UTC: 14:30") (lines (nl ++ lit "  - UTC: 14:30")) /\
  startswith (lit "  - UTC: 14:30") (lit "-") = false /\
  global_equivalents
    (fst (_parse_response (lit "Global Equivalents:" ++ nl ++ lit "  - UTC: 14:30"))) =
  [(lit "UTC", lit "14:30")].
Proof.
  split; [right; left; reflexivity|].
  split; vm_compute; reflexivity.
Qed.

(** C2, amended: the mapping is built line by line from the block; a line
    contributes exactly when, once trimmed, it reads "-" label ":" value
    with no ":" in the label (the split is at the first ":") and both the
    trimmed label and the trimmed value are non-empty; the entry maps the
    trimmed label to the trimmed value; any other line leaves the mapping
    as it is; and nothing is raised. *)
Theorem C2_equivalents_block_line_by_line (pre block : str) :
  str_in (lit "Global Equivalents:") pre = false ->
  str_in (lit "Global Equivalents:") block = false ->
  snd (_parse_response (pre ++ lit "Global Equivalents:" ++ block)) = None /\
  global_equivalents
    (fst (_parse_response (pre ++ lit "Global Equivalents:" ++ block))) =
  fold_left add_line (lines block) [] /\
  (forall line k v,
     entry_of_line line = Some (k, v) <->
     exists label value,
       strip line = lit "-" ++ label ++ lit ":" ++ value /\
       str_in (lit ":") label = false /\
       k = strip label /\ v = strip value /\ k <> [] /\ v <> []) /\
  (forall d line,
     startswith (strip line) (lit "-") && str_in (lit ":") (strip line) = false ->
     add_line d line = d).
Proof.
  intros Hpre Hblock.
  rewrite parse_response_closed. cbn [fst snd global_equivalents].
  rewrite (after_once (lit "Global Equivalents:") _ pre block);
    [|reflexivity|repeat split; assumption].
  split; [reflexivity|]. split; [reflexivity|]. split.
  - apply entry_of_line_spec.
  - intros d line H. unfold add_line.
    rewrite entry_of_line_unqualified by assumption. reflexivity.
Qed.

(** C2, amended, at a block with a repeated label, a line without a
    leading dash and a value that holds colons. *)
Lemma C2_equivalents_block_witness :
  global_equivalents
    (fst (_parse_response
            (lit "Standardized (ISO 8601): 2024-03-15T14:15:00+05:30 "
               ++ lit "Global Equivalents:"
               ++ (nl ++ lit "- UTC: 2024-03-15T08:45:00+00:00" ++ nl
                      ++ lit "Note: nothing to convert" ++ nl
                      ++ lit "- IST: 14:15:00" ++ nl ++ lit "- UTC: 08:45")))) =
  [(lit "UTC", lit "08:45"); (lit "IST", lit "14:15:00")].
Proof.
  destruct (C2_equivalents_block_line_by_line
              (lit "Standardized (ISO 8601): 2024-03-15T14:15:00+05:30 ")
              (nl ++ lit "- UTC: 2024-03-15T08:45:00+00:00" ++ nl
                  ++ lit "Note: nothing to convert" ++ nl
                  ++ lit "- IST: 14:15:00" ++ nl ++ lit "- UTC: 08:45"))
    as (_ & E & _); [vm_compute; reflexivity|vm_compute; reflexivity|].
  rewrite E. vm_compute. reflexivity.
Defined.



End TimezoneFacts.

(** ** Further facts about the Python runtime model *)
Module PyMoreFacts.
Import Py Slices Items PyFacts.

(** *** Trimming keeps a contiguous part of the string *)

Lemma lstrip_by_suffix (p : char -> bool) (s : str) :
  exists a, s = a ++ lstrip_by p s.
Proof.
  induction s as [|c s [a IH]]; cbn [lstrip_by].
  - exists []. reflexivity.
  - destruct (p c).
    + exists (c :: a). cbn [app]. f_equal. exact IH.
    + exists []. reflexivity.
Qed.

Lemma rstrip_by_prefix (p : char -> bool) (s : str) :
  exists b, s = rstrip_by p s ++ b.
Proof.
  unfold rstrip_by. destruct (lstrip_by_suffix p (rev s)) as [a E].
  exists (rev a). rewrite <- rev_app_distr, <- E, rev_involutive. reflexivity.
Qed.

Lemma strip_by_infix (p : char -> bool) (s : str) :
  exists a b, s = a ++ strip_by p s ++ b.
Proof.
  unfold strip_by.
  destruct (lstrip_by_suffix p s) as [a Ea].
  destruct (rstrip_by_prefix p (lstrip_by p s)) as [b Eb].
  exists a, b. rewrite <- Eb. exact Ea.
Qed.

Lemma str_in_strip (m s : str) :
  str_in m s = false -> str_in m (strip s) = false.
Proof.
  intros H. destruct (strip_by_infix isspace s) as (a & b & E).
  fold (strip s) in E. rewrite E in H.
  apply str_in_app_false in H as [_ H].
  apply str_in_app_false in H as [H _]. exact H.
Qed.

(** *** The pieces of a split *)

Lemma startswith_app_l (a r p : str) :
  startswith a p = true -> startswith (a ++ r) p = true.
Proof.
  intros H. apply startswith_inv in H as [t ->].
  rewrite <- app_assoc. apply startswith_app.
Qed.

Lemma split_go_first_prefix (sep : str) (m : Z) (s : str) :
  exists rest, s = nth 0 (split_go sep m 0 s) [] ++ rest.
Proof.
  induction s as [|c s [rest IH]].
  - exists []. reflexivity.
  - cbn [split_go].
    destruct (negb (m =? 0)%Z && startswith (c :: s) sep).
    + exists (c :: s). reflexivity.
    + pose proof (split_go_not_nil sep m 0 s) as N.
      destruct (split_go sep m 0 s) as [|p ps]; [congruence|].
      cbn [cons_hd nth] in *. exists rest. cbn [app]. f_equal. exact IH.
Qed.

(** With no limit on the number of splits, no piece holds the separator. *)
Lemma split_go_pieces_free (sep : str) (m : Z) (k : nat) (s : str) :
  sep <> [] -> (m < 0)%Z ->
  Forall (fun p => str_in sep p = false) (split_go sep m k s).
Proof.
  intros Hsep. revert m k. induction s as [|c s IH]; intros m k Hm.
  - cbn [split_go]. constructor; [|constructor]. apply str_in_nil, Hsep.
  - cbn [split_go]. destruct k as [|k]; [|apply IH, Hm].
    destruct (Z.eqb_spec m 0); [lia|]. cbn [negb andb].
    destruct (startswith (c :: s) sep) eqn:E.
    + constructor; [apply str_in_nil, Hsep|]. apply IH. lia.
    + specialize (IH m 0 Hm).
      destruct (split_go_first_prefix sep m s) as [rest P].
      pose proof (split_go_not_nil sep m 0 s) as N.
      destruct (split_go sep m 0 s) as [|p ps]; [congruence|].
      cbn [cons_hd nth] in *. inversion IH as [|? ? Hp Hps]; subst.
      constructor; [|exact Hps].
      rewrite str_in_cons, Hp, orb_false_r.
      destruct (startswith (c :: p) sep) eqn:F; [|reflexivity].
      apply (startswith_app_l _ rest) in F. cbn [app] in F.
      congruence.
Qed.

Lemma before_free (s m : str) : m <> [] -> str_in m (before s m) = false.
Proof.
  intros Hm. unfold before.
  pose proof (split_go_pieces_free m (-1) 0 s Hm eq_refl) as F.
  pose proof (split_go_not_nil m (-1) 0 s) as N.
  destruct (split_go m (-1) 0 s) as [|p ps]; [congruence|].
  inversion F; subst. assumption.
Qed.

Lemma split_go_char_length (c : char) (m : Z) (s : str) :
  (m < 0)%Z -> List.length (split_go [c] m 0 s) = S (count_char c s).
Proof.
  revert m. induction s as [|x s IH]; intros m Hm; [reflexivity|].
  cbn [split_go count_char startswith]. rewrite startswith_nil, andb_true_r.
  destruct (Z.eqb_spec m 0); [lia|]. cbn [negb andb].
  rewrite (N.eqb_sym c x).
  destruct (x =? c)%N.
  - cbn [List.length Nat.sub]. rewrite IH by lia. reflexivity.
  - rewrite cons_hd_length by apply split_go_not_nil.
    rewrite IH by assumption. reflexivity.
Qed.

(** The piece behind the first occurrence of a marker ends at its second
    occurrence. *)
Lemma after_twice (m pre mid post : str) :
  unbordered m = true -> str_in m pre = false -> str_in m mid = false ->
  after (pre ++ m ++ mid ++ m ++ post) m = mid.
Proof.
  intros U Hpre Hmid. unfold after.
  rewrite str_in_app.
  rewrite split_go_unbordered by (assumption || discriminate).
  rewrite split_go_unbordered by (assumption || discriminate).
  reflexivity.
Qed.

(** *** Dictionaries *)

Lemma dict_set_in (d : dict) (k v k' v' : str) :
  In (k', v') (dict_set d k v) -> In (k', v') d \/ (k' = k /\ v' = v).
Proof.
  induction d as [|[k0 v0] d IH]; cbn [dict_set].
  - intros [E|[]]. injection E as <- <-. right. split; reflexivity.
  - destruct (str_eqb k0 k) eqn:E.
    + apply str_eqb_eq in E. subst k0. intros [H|H].
      * injection H as <- <-. right. split; reflexivity.
      * left. right. exact H.
    + intros [H|H].
      * left. left. exact H.
      * destruct (IH H) as [I|I]; [left; right; exact I|right; exact I].
Qed.

Lemma dict_set_nodup (d : dict) (k v : str) :
  NoDup (keys d) -> NoDup (keys (dict_set d k v)).
Proof.
  intros N. rewrite keys_dict_set.
  destruct (existsb (str_eqb k) (keys d)) eqn:E; [exact N|].
  apply NoDup_app; [exact N|constructor; [intros []|constructor]|].
  intros x I [<-|[]]. apply existsb_str_eqb in I. congruence.
Qed.

(** With distinct keys, the pairs after [d[k] = v] are [(k, v)] and the
    pairs of [d] under other keys. *)
Lemma dict_set_items (d : dict) (k v k' v' : str) :
  NoDup (keys d) ->
  In (k', v') (dict_set d k v) <->
  (k' = k /\ v' = v) \/ (k' <> k /\ In (k', v') d).
Proof.
  intros N. induction d as [|[k0 v0] d IH]; cbn [dict_set].
  - split.
    + intros [E|[]]. injection E as <- <-. left. split; reflexivity.
    + intros [[-> ->]|[_ []]]. left. reflexivity.
  - inversion N as [|? ? N1 N2]; subst. specialize (IH N2).
    destruct (str_eqb k0 k) eqn:E.
    + apply str_eqb_eq in E. subst k0. split.
      * intros [H|H].
        -- injection H as <- <-. left. split; reflexivity.
        -- right. split; [|right; exact H].
           intros ->. apply N1. change k with (fst (k, v')).
           apply in_map. exact H.
      * intros [[-> ->]|[D [H|H]]].
        -- left. reflexivity.
        -- injection H as -> _. congruence.
        -- right. exact H.
    + apply str_eqb_neq in E. split.
      * intros [H|H].
        -- injection H as <- <-. right. split; [exact E|left; reflexivity].
        -- apply IH in H as [H|[D H]]; [left; exact H|].
           right. split; [exact D|right; exact H].
      * intros [[-> ->]|[D [H|H]]].
        -- right. apply IH. left. split; reflexivity.
        -- left. exact H.
        -- right. apply IH. right. split; assumption.
Qed.

End PyMoreFacts.

(** ** Further facts about src/dateformatter_llm.py *)
Module DateAwareMore.
Import Py Slices Items PyFacts PyMoreFacts DateAware.

Lemma parse_date_closed (response : str) :
  _parse_date_response response =
  Ok {| original_text :=
          if str_in (lit "Original text:") response
          then strip (before (after response (lit "Original text:"))
                             (lit "Standardized text:"))
          else [];
        standardized_text :=
          if str_in (lit "Standardized text:") response
          then strip (before (after response (lit "Standardized text:"))
                             (lit "Extracted dates:"))
          else [];
        extracted_dates :=
          if str_in (lit "Extracted dates:") response
          then dates_of (strip (after response (lit "Extracted dates:")))
          else [] |}.
Proof. apply DateAwareFacts.parse_date_response_closed. Qed.

Lemma dates_of_tokens (rem d : str) :
  In d (dates_of rem) -> strip d = d /\ str_in (lit ",") d = false.
Proof.
  unfold dates_of. destruct (truthy rem); [|intros []].
  intros I. apply in_map_iff in I as (p & <- & I).
  split; [apply strip_idem|]. apply str_in_strip.
  pose proof (split_go_pieces_free (lit ",") (-1) 0 rem) as F.
  rewrite Forall_forall in F. apply F; [lit_ne|reflexivity|exact I].
Qed.

(** The text fields of a parse carry no surrounding white space and stop
    before the next marker; the date tokens carry no surrounding white
    space and no comma. *)
Theorem parsed_date_fields_are_trimmed (response : str) :
  exists result,
    _parse_date_response response = Ok result /\
    strip (original_text result) = original_text result /\
    str_in (lit "Standardized text:") (original_text result) = false /\
    strip (standardized_text result) = standardized_text result /\
    str_in (lit "Extracted dates:") (standardized_text result) = false /\
    (forall d, In d (extracted_dates result) ->
       strip d = d /\ str_in (lit ",") d = false).
Proof.
  eexists. split; [apply parse_date_closed|].
  cbn [original_text standardized_text extracted_dates].
  repeat split.
  - destruct (str_in (lit "Original text:") response);
      [apply strip_idem|reflexivity].
  - destruct (str_in (lit "Original text:") response); [|reflexivity].
    apply str_in_strip, before_free. lit_ne.
  - destruct (str_in (lit "Standardized text:") response);
      [apply strip_idem|reflexivity].
  - destruct (str_in (lit "Standardized text:") response); [|reflexivity].
    apply str_in_strip, before_free. lit_ne.
  - destruct (str_in (lit "Extracted dates:") response) in H; [|destruct H].
    apply (dates_of_tokens _ _ H).
  - destruct (str_in (lit "Extracted dates:") response) in H; [|destruct H].
    apply (dates_of_tokens _ _ H).
Qed.

Lemma parsed_date_fields_witness :
  strip (lit "2023-03-15") = lit "2023-03-15" /\
  str_in (lit ",") (lit "2023-03-15") = false.
Proof.
  destruct (parsed_date_fields_are_trimmed
              (lit "Extracted dates:  2023-03-15 , 2023-03-20 "))
    as (result & E & _ & _ & _ & _ & H).
  vm_compute in E. injection E as <-.
  apply H. left. reflexivity.
Defined.

(** The number of date tokens is the number of commas of the trimmed text
    after the marker plus one, and zero when that text is empty. *)
Theorem extracted_dates_count (pre rest : str) :
  str_in (lit "Extracted dates:") pre = false ->
  str_in (lit "Extracted dates:") rest = false ->
  exists result,
    _parse_date_response (pre ++ lit "Extracted dates:" ++ rest) = Ok result /\
    List.length (extracted_dates result) =
      (if truthy (strip rest) then S (count_char 44%N (strip rest)) else 0).
Proof.
  intros Hpre Hrest.
  eexists. split; [apply parse_date_closed|].
  cbn [extracted_dates]. rewrite str_in_app.
  rewrite (after_once (lit "Extracted dates:") _ pre rest);
    [|reflexivity|repeat split; assumption].
  unfold dates_of. destruct (truthy (strip rest)); [|reflexivity].
  rewrite length_map. apply (split_go_char_length 44%N). reflexivity.
Qed.

Lemma extracted_dates_count_witness :
  exists result,
    _parse_date_response (lit "Extracted dates: 2023-03-15, 2023-03-20,, 2023-03-15") =
      Ok result /\
    List.length (extracted_dates result) = 4.
Proof.
  destruct (extracted_dates_count [] (lit " 2023-03-15, 2023-03-20,, 2023-03-15"))
    as (result & E & L); [reflexivity|reflexivity|].
  exists result. split; [exact E|]. rewrite L. vm_compute. reflexivity.
Defined.

(** When the marker "Extracted dates:" occurs a second time, the dates are
    read from the text between its first two occurrences; what follows the
    second occurrence is ignored. *)
Theorem second_marker_cuts_the_date_list (pre mid post : str) :
  str_in (lit "Extracted dates:") pre = false ->
  str_in (lit "Extracted dates:") mid = false ->
  exists result,
    _parse_date_response
      (pre ++ lit "Extracted dates:" ++ mid ++ lit "Extracted dates:" ++ post) =
      Ok result /\
    extracted_dates result =
      (if truthy (strip mid)
       then map strip (split_go (lit ",") (-1) 0 (strip mid))
       else []).
Proof.
  intros Hpre Hmid.
  eexists. split; [apply parse_date_closed|].
  cbn [extracted_dates]. rewrite str_in_app.
  rewrite after_twice by (reflexivity || assumption). reflexivity.
Qed.

Lemma second_marker_witness :
  exists result,
    _parse_date_response
      (lit "Original text: the form says Extracted dates: none Standardized text: same Extracted dates: 2023-03-15") =
      Ok result /\
    extracted_dates result = [lit "none Standardized text: same"].
Proof.
  destruct (second_marker_cuts_the_date_list
              (lit "Original text: the form says ")
              (lit " none Standardized text: same ")
              (lit " 2023-03-15"))
    as (result & E & D); [vm_compute; reflexivity|vm_compute; reflexivity|].
  exists result. split; [exact E|]. rewrite D. vm_compute. reflexivity.
Defined.

Section PipelineMore.

Variable datetime : Type.
Variable dt_date : datetime -> date.
Variable isoformat : datetime -> res str.
Variable strftime : datetime -> str -> res str.
Variable dateutil_parse : str -> res datetime.
Variable now : nat -> date.
Variable date_parser_chain : str -> res str.
Variable qa_chain : str -> str -> res str.

Local Abbreviation analyze :=
  (analyze datetime dt_date isoformat strftime dateutil_parse now).
Local Abbreviation process_text_with_dates :=
  (process_text_with_dates datetime dt_date isoformat strftime dateutil_parse now
     date_parser_chain).
Local Abbreviation extract_dates := (extract_dates date_parser_chain).
Local Abbreviation answer_date_question :=
  (answer_date_question date_parser_chain qa_chain).

Lemma analyze_frame (k : nat) (extracted : list str) (info : EnhancedInfo) :
  standardized (analyze k extracted info) = standardized info /\
  relative_dates (analyze k extracted info) = relative_dates info /\
  date_relations (analyze k extracted info) = date_relations info.
Proof.
  revert k info. induction extracted as [|date_str rest IH]; intros k info.
  - repeat split.
  - cbn [DateAware.analyze].
    destruct (describe datetime dt_date isoformat strftime dateutil_parse now
                k date_str) as [entry|e].
    + destruct (IH (S k) (append_date info entry)) as (A & B & C).
      rewrite A, B, C. repeat split.
    + apply IH.
Qed.

(** Extraction and the full pipeline fail exactly when the model call
    fails, and then with the model call's exception: neither the parse nor
    the enrichment pass adds a failure. *)
Theorem pipeline_fails_only_with_the_model (text : str) (e : exn) :
  (extract_dates text = Raise e <-> date_parser_chain text = Raise e) /\
  (process_text_with_dates text = Raise e <-> date_parser_chain text = Raise e).
Proof.
  unfold DateAware.process_text_with_dates, DateAware.extract_dates.
  destruct (date_parser_chain text) as [response|e'].
  - rewrite bind_ok, parse_date_closed, bind_ok.
    split; split; discriminate.
  - cbn [bind]. split; split; intros H; injection H as ->; reflexivity.
Qed.

(** The record of the pipeline carries the standardized text sliced from
    the completion, and its lists "relative_dates" and "date_relations" are
    always empty. *)
Theorem pipeline_record_fields (text completion : str) :
  date_parser_chain text = Ok completion ->
  exists info,
    process_text_with_dates text = Ok info /\
    standardized info =
      (if str_in (lit "Standardized text:") completion
       then strip (before (after completion (lit "Standardized text:"))
                          (lit "Extracted dates:"))
       else []) /\
    relative_dates info = [] /\
    date_relations info = [].
Proof.
  intros H.
  unfold DateAware.process_text_with_dates, DateAware.extract_dates. rewrite H.
  rewrite bind_ok, parse_date_closed, bind_ok.
  eexists. split; [reflexivity|].
  match goal with
  | |- context [DateAware.analyze _ _ _ _ _ _ ?k ?l ?i] =>
      destruct (analyze_frame k l i) as (A & B & C)
  end.
  rewrite A, B, C. repeat split.
Qed.

(** A question asked with a non-empty date context goes to the answering
    chain with that context and makes no extraction call; with no context,
    or an empty one, the question itself is sent for extraction and the
    standardized text of that completion becomes the context, and a
    failure of the extraction call is the failure of the answer. *)
Theorem question_context_rule (question : str) :
  answer_date_question question (Some []) = answer_date_question question None /\
  (forall c, c <> [] ->
     answer_date_question question (Some c) = qa_chain question c) /\
  (forall e, date_parser_chain question = Raise e ->
     answer_date_question question None = Raise e) /\
  (forall completion, date_parser_chain question = Ok completion ->
     answer_date_question question None =
     qa_chain question
       (if str_in (lit "Standardized text:") completion
        then strip (before (after completion (lit "Standardized text:"))
                           (lit "Extracted dates:"))
        else [])).
Proof.
  unfold DateAware.answer_date_question, DateAware.extract_dates.
  split; [reflexivity|]. split; [|split].
  - intros c Hc. apply truthy_true in Hc. rewrite Hc. reflexivity.
  - intros e H. rewrite H. reflexivity.
  - intros completion H. rewrite H.
    rewrite bind_ok, parse_date_closed, !bind_ok. reflexivity.
Qed.

End PipelineMore.

Lemma pipeline_record_witness :
  exists info,
    process_text_with_dates date (fun d => d) Fixture.iso_constant
      Fixture.weekday_constant Fixture.parse_only_iso Fixture.clock Fixture.model
      (lit "We meet on the first of January") = Ok info /\
    standardized info = lit "on 2024-01-01" /\
    relative_dates info = [] /\ date_relations info = [].
Proof.
  destruct (pipeline_record_fields
              date (fun d => d) Fixture.iso_constant Fixture.weekday_constant
              Fixture.parse_only_iso Fixture.clock Fixture.model
              (lit "We meet on the first of January") _ eq_refl)
    as (info & E & S & R & D).
  exists info. split; [exact E|]. split; [|split; assumption].
  rewrite S. vm_compute. reflexivity.
Defined.

Lemma question_context_witness :
  answer_date_question model_down echo_context
    (lit "When is it due?") (Some (lit "due 2023-03-15")) = Ok (lit "due 2023-03-15") /\
  answer_date_question model_down echo_context
    (lit "When is it due?") None = Raise ExternalError /\
  answer_date_question Fixture.model echo_context
    (lit "When is it due?") (Some []) = Ok (lit "on 2024-01-01").
Proof.
  split; [|split].
  - destruct (question_context_rule model_down echo_context (lit "When is it due?"))
      as (_ & H & _).
    rewrite H; [reflexivity|vm_compute; discriminate].
  - destruct (question_context_rule model_down echo_context (lit "When is it due?"))
      as (_ & _ & H & _).
    apply H. reflexivity.
  - destruct (question_context_rule Fixture.model echo_context (lit "When is it due?"))
      as (E & _ & _ & H).
    rewrite E, (H _ eq_refl). vm_compute. reflexivity.
Defined.

(** *** The relative description names the day difference *)

Lemma N_of_ascii_inj (a b : ascii) : N_of_ascii a = N_of_ascii b -> a = b.
Proof.
  intros H. rewrite <- (ascii_N_embedding a), <- (ascii_N_embedding b), H.
  reflexivity.
Qed.

Lemma lit_inj (a b : string) : lit a = lit b -> a = b.
Proof.
  unfold lit. intros H.
  rewrite <- (string_of_list_ascii_of_string a),
          <- (string_of_list_ascii_of_string b).
  f_equal. revert H.
  generalize (list_ascii_of_string a) (list_ascii_of_string b).
  intros l. induction l as [|x l IH]; intros [|y l']; cbn [map];
    try discriminate; [reflexivity|].
  intros H. injection H as H1 H2.
  f_equal; [apply N_of_ascii_inj, H1|apply IH, H2].
Qed.

Lemma to_int_proper (z : Z) :
  Z.to_int z <> Decimal.Pos Decimal.Nil /\ Z.to_int z <> Decimal.Neg Decimal.Nil.
Proof.
  destruct z as [|p|p]; cbn; split; try discriminate;
    intros H; injection H as H; revert H; apply DecimalPos.Unsigned.to_uint_nonnil.
Qed.

Lemma str_of_int_inj (a b : Z) : str_of_int a = str_of_int b -> a = b.
Proof.
  unfold str_of_int. intros H. apply lit_inj in H.
  apply DecimalZ.to_int_inj.
  destruct (to_int_proper a) as [A1 A2], (to_int_proper b) as [B1 B2].
  pose proof (NilZero.isi _ A1 A2) as Ia.
  pose proof (NilZero.isi _ B1 B2) as Ib.
  rewrite H in Ia. congruence.
Qed.

Lemma in_days_inj (a b : Z) :
  lit "in " ++ str_of_int a ++ lit " days" = lit "in " ++ str_of_int b ++ lit " days" ->
  a = b.
Proof.
  intros H. apply app_inv_head in H. apply app_inv_tail in H.
  apply str_of_int_inj, H.
Qed.

Lemma days_ago_inj (a b : Z) :
  str_of_int a ++ lit " days ago" = str_of_int b ++ lit " days ago" -> a = b.
Proof. intros H. apply app_inv_tail in H. apply str_of_int_inj, H. Qed.

Lemma ends_with_o (x c : str) :
  c = x ++ lit " days ago" -> hd 0%N (rev c) = 111%N.
Proof. intros ->. rewrite rev_app_distr. reflexivity. Qed.

Lemma ends_with_s (x c : str) :
  c = x ++ lit " days" -> hd 0%N (rev c) = 115%N.
Proof. intros ->. rewrite rev_app_distr. reflexivity. Qed.

(** No other description ends like "N days ago". *)
Ltac not_days_ago H :=
  let E := fresh "E" in
  pose proof (ends_with_o _ _ H) as E;
  first [ rewrite app_assoc in E;
          rewrite (ends_with_s _ _ eq_refl) in E; discriminate E
        | vm_compute in E; discriminate E ].

Section Description.

Variable datetime : Type.
Variable dt_date : datetime -> date.

Local Abbreviation describe_day := (_get_relative_date_description datetime dt_date).

(** Two relative descriptions are equal only for equal day differences: the
    description tells the difference between the date and the clock. *)
Theorem relative_description_determines_day_difference
  (today1 today2 : date) (date_obj1 date_obj2 : datetime) :
  describe_day today1 date_obj1 = describe_day today2 date_obj2 ->
  (toordinal (dt_date date_obj1) - toordinal today1 =
   toordinal (dt_date date_obj2) - toordinal today2)%Z.
Proof.
  unfold _get_relative_date_description, date_sub. cbn [days].
  generalize (toordinal (dt_date date_obj1) - toordinal today1)%Z as n.
  generalize (toordinal (dt_date date_obj2) - toordinal today2)%Z as m.
  intros m n H.
  destruct (Z.eqb_spec n 0), (Z.eqb_spec n 1), (Z.eqb_spec n (-1)),
    (Z.gtb_spec n 0), (Z.eqb_spec m 0), (Z.eqb_spec m 1), (Z.eqb_spec m (-1)),
    (Z.gtb_spec m 0);
    try lia;
    try (exfalso; vm_compute in H; discriminate H);
    try (exfalso; cbn in H; discriminate H);
    try (symmetry in H; exfalso; cbn in H; discriminate H);
    try (apply in_days_inj in H; exact H);
    try (apply days_ago_inj in H; lia);
    exfalso.
  all: first [ not_days_ago H | symmetry in H; not_days_ago H ].
Qed.

End Description.

Lemma relative_description_witness :
  (738886 - 738880 = 738006 - 738000)%Z.
Proof.
  apply (relative_description_determines_day_difference date (fun d => d)
           {| toordinal := 738880 |} {| toordinal := 738000 |}
           {| toordinal := 738886 |} {| toordinal := 738006 |}).
  vm_compute. reflexivity.
Defined.

End DateAwareMore.

(** ** Further facts about src/timezone.py *)
Module TimezoneMore.
Import Py Slices BlockSpec Items PyFacts PyMoreFacts TimezoneAware.

Lemma tz_closed (response : str) :
  _parse_response response =
  ({| original :=
        strip (before (after response (lit "Original:")) (lit "Detected Timezone:"));
      detected_timezone :=
        strip (before (after response (lit "Detected Timezone:"))
                      (lit "Standardized (ISO 8601):"));
      standardized :=
        strip (before (after response (lit "Standardized (ISO 8601):"))
                      (lit "Global Equivalents:"));
      global_equivalents :=
        equivalents_of_block (after response (lit "Global Equivalents:")) |},
   None).
Proof. apply TimezoneFacts.parse_response_closed. Qed.

Lemma field_absent (r m next : str) :
  str_in m r = false -> strip (before (after r m) next) = [].
Proof. intros H. rewrite after_absent by assumption. reflexivity. Qed.

(** For the second [_parse_response]: a field whose marker is absent keeps
    its zero value, whatever the other markers do, and a completion with no
    marker gives the empty result and no warning. *)
Theorem tz_absent_marker_leaves_zero_value (response : str) :
  (str_in (lit "Original:") response = false ->
   original (fst (_parse_response response)) = []) /\
  (str_in (lit "Detected Timezone:") response = false ->
   detected_timezone (fst (_parse_response response)) = []) /\
  (str_in (lit "Standardized (ISO 8601):") response = false ->
   standardized (fst (_parse_response response)) = []) /\
  (str_in (lit "Global Equivalents:") response = false ->
   global_equivalents (fst (_parse_response response)) = []) /\
  (str_in (lit "Original:") response = false ->
   str_in (lit "Detected Timezone:") response = false ->
   str_in (lit "Standardized (ISO 8601):") response = false ->
   str_in (lit "Global Equivalents:") response = false ->
   _parse_response response = (empty_result, None)).
Proof.
  rewrite tz_closed. cbn [fst original detected_timezone standardized global_equivalents].
  repeat split; intros.
  - apply field_absent; assumption.
  - apply field_absent; assumption.
  - apply field_absent; assumption.
  - rewrite after_absent by assumption. reflexivity.
  - rewrite !field_absent by assumption.
    rewrite after_absent by assumption. reflexivity.
Qed.

Lemma tz_absent_marker_witness :
  _parse_response (lit "Sorry, I cannot help with that.") = (empty_result, None) /\
  original
    (fst (_parse_response
            (lit "Detected Timezone: EST Standardized (ISO 8601): 2024-03-15T14:00:00-05:00"))) = [].
Proof.
  split.
  - destruct (tz_absent_marker_leaves_zero_value (lit "Sorry, I cannot help with that."))
      as (_ & _ & _ & _ & H).
    apply H; vm_compute; reflexivity.
  - destruct (tz_absent_marker_leaves_zero_value
                (lit "Detected Timezone: EST Standardized (ISO 8601): 2024-03-15T14:00:00-05:00"))
      as (H & _).
    apply H. vm_compute. reflexivity.
Defined.

Lemma fold_add_line_in (ls : list str) (d : dict) (k v : str) :
  In (k, v) (fold_left add_line ls d) ->
  In (k, v) d \/ exists line, In line ls /\ entry_of_line line = Some (k, v).
Proof.
  revert d. induction ls as [|line ls IH]; intros d I; [left; exact I|].
  cbn [fold_left] in I. apply IH in I as [I|(l & L & E)].
  - unfold add_line in I.
    destruct (entry_of_line line) as [[k0 v0]|] eqn:E; [|left; exact I].
    apply dict_set_in in I as [I|[-> ->]]; [left; exact I|].
    right. exists line. split; [left; reflexivity|exact E].
  - right. exists l. split; [right; exact L|exact E].
Qed.

(** For the second [_parse_response]: the three text fields carry no
    surrounding white space and stop before the next marker; every key and
    every value of the mapping is non-empty and carries no surrounding
    white space, and no key holds a colon. *)
Theorem tz_result_is_trimmed (response : str) :
  let result := fst (_parse_response response) in
  strip (original result) = original result /\
  str_in (lit "Detected Timezone:") (original result) = false /\
  strip (detected_timezone result) = detected_timezone result /\
  str_in (lit "Standardized (ISO 8601):") (detected_timezone result) = false /\
  strip (standardized result) = standardized result /\
  str_in (lit "Global Equivalents:") (standardized result) = false /\
  (forall k v, In (k, v) (global_equivalents result) ->
     k <> [] /\ v <> [] /\ strip k = k /\ strip v = v /\
     str_in (lit ":") k = false).
Proof.
  intros result. subst result. rewrite tz_closed.
  cbn [fst original detected_timezone standardized global_equivalents].
  repeat split; try apply strip_idem;
    try (apply str_in_strip, before_free; lit_ne).
  all: unfold equivalents_of_block in H;
    apply fold_add_line_in in H as [[]|(line & _ & E)];
    apply TimezoneFacts.entry_of_line_spec in E
      as (label & value & _ & C & -> & -> & K & V).
  - exact K.
  - exact V.
  - apply strip_idem.
  - apply strip_idem.
  - apply str_in_strip. exact C.
Qed.

Lemma tz_result_witness :
  lit "UTC" <> [] /\ lit "19:00" <> [] /\
  strip (lit "UTC") = lit "UTC" /\ strip (lit "19:00") = lit "19:00" /\
  str_in (lit ":") (lit "UTC") = false.
Proof.
  pose proof (tz_result_is_trimmed
                (lit "Global Equivalents: -  UTC : 19:00 ")) as H.
  cbv zeta in H. destruct H as (_ & _ & _ & _ & _ & _ & H).
  apply H. vm_compute. left. reflexivity.
Defined.

Lemma add_line_nodup (d : dict) (line : str) :
  NoDup (keys d) -> NoDup (keys (add_line d line)).
Proof.
  intros N. unfold add_line.
  destruct (entry_of_line line) as [[k v]|]; [|exact N].
  apply dict_set_nodup, N.
Qed.

Lemma entries_cons (line : str) (ls : list str) :
  entries_of_lines (line :: ls) =
  match entry_of_line line with
  | Some e => [e]
  | None => []
  end ++ entries_of_lines ls.
Proof. reflexivity. Qed.

Lemma fold_add_line_items (ls : list str) (d : dict) (k v : str) :
  NoDup (keys d) ->
  In (k, v) (fold_left add_line ls d) <->
  (exists l1 l2, entries_of_lines ls = l1 ++ (k, v) :: l2 /\ ~ In k (map fst l2)) \/
  (In (k, v) d /\ ~ In k (map fst (entries_of_lines ls))).
Proof.
  revert d. induction ls as [|line ls IH]; intros d N.
  - cbn. split.
    + intros I. right. split; [exact I|intros []].
    + intros [(l1 & l2 & E & _)|[I _]]; [destruct l1; discriminate|exact I].
  - cbn [fold_left]. rewrite (IH _ (add_line_nodup d line N)).
    rewrite entries_cons. unfold add_line.
    destruct (entry_of_line line) as [[k0 v0]|]; [|reflexivity].
    rewrite (dict_set_items d k0 v0 k v N). cbn [app map fst In].
    split.
    + intros [(l1 & l2 & E & F)|[[[-> ->]|[D I]] F]].
      * left. exists ((k0, v0) :: l1), l2. rewrite E. split; [reflexivity|exact F].
      * left. exists [], (entries_of_lines ls). split; [reflexivity|exact F].
      * right. split; [exact I|]. intros [C|C]; [congruence|contradiction].
    + intros [(l1 & l2 & E & F)|[I F]].
      * destruct l1 as [|x l1]; cbn [app] in E.
        -- injection E as -> -> <-. right. split; [left; split; reflexivity|exact F].
        -- injection E as _ E. left. exists l1, l2. split; assumption.
      * right. split.
        -- right. split; [|exact I]. intros ->. apply F. left. reflexivity.
        -- intros C. apply F. right. exact C.
Qed.

(** For the second [_parse_response]: the mapping pairs a label with the
    value of the last recorded line that carries this label; earlier values
    for the label are overwritten. *)
Theorem tz_last_value_wins (response k v : str) :
  In (k, v) (global_equivalents (fst (_parse_response response))) <->
  exists l1 l2,
    entries_of_lines (lines (after response (lit "Global Equivalents:"))) =
      l1 ++ (k, v) :: l2 /\
    ~ In k (map fst l2).
Proof.
  rewrite tz_closed. cbn [fst global_equivalents]. unfold equivalents_of_block.
  rewrite fold_add_line_items by constructor.
  split.
  - intros [H|[[] _]]. exact H.
  - intros H. left. exact H.
Qed.

(** *** The first definition *)

Lemma first_loop_ok (ls : list str) (r : TzResult) :
  existsb dash_without_colon ls = false ->
  V1.equivalents_loop ls r = Ok (fold_left first_loop_step ls r).
Proof.
  revert r. induction ls as [|line ls IH]; intros r H; [reflexivity|].
  cbn [existsb] in H. apply orb_false_iff in H as [B H].
  cbn [V1.equivalents_loop fold_left]. unfold first_loop_step at 2.
  unfold dash_without_colon in B.
  destruct (str_in (lit "-") line); [|apply IH, H].
  cbn [andb] in B. apply negb_false_iff in B.
  rewrite split_max_ok by lit_ne. rewrite bind_ok.
  rewrite (TimezoneFacts.split_colon_once _ B). cbn [unpack2]. rewrite bind_ok.
  apply IH, H.
Qed.

Lemma first_loop_raises (ls : list str) (r : TzResult) :
  existsb dash_without_colon ls = true ->
  V1.equivalents_loop ls r = Raise ValueError.
Proof.
  revert r. induction ls as [|line ls IH]; intros r H; [discriminate|].
  cbn [existsb] in H. cbn [V1.equivalents_loop].
  unfold dash_without_colon in H.
  destruct (str_in (lit "-") line).
  - rewrite split_max_ok by lit_ne. rewrite bind_ok.
    destruct (str_in (lit ":") line) eqn:C.
    + rewrite (TimezoneFacts.split_colon_once _ C). cbn [unpack2]. rewrite bind_ok.
      apply IH. exact H.
    + rewrite split_go_miss by (lit_ne || assumption). reflexivity.
  - apply IH. exact H.
Qed.

Lemma first_loop_frame (ls : list str) (r : TzResult) :
  original (fold_left first_loop_step ls r) = original r /\
  detected_timezone (fold_left first_loop_step ls r) = detected_timezone r /\
  standardized (fold_left first_loop_step ls r) = standardized r.
Proof.
  revert r. induction ls as [|line ls IH]; intros r; [repeat split|].
  cbn [fold_left]. destruct (IH (first_loop_step r line)) as (A & B & C).
  rewrite A, B, C. unfold first_loop_step.
  destruct (str_in (lit "-") line); repeat split.
Qed.

(** The text fields as the first definition computes them. *)
Lemma first_fields (response : str) :
  V1._parse_response response =
  let fields :=
    {| original :=
         strip (before (after response (lit "Original:")) (lit "Detected Timezone:"));
       detected_timezone :=
         strip (before (after response (lit "Detected Timezone:"))
                       (lit "Standardized (ISO 8601):"));
       standardized :=
         strip (before (after response (lit "Standardized (ISO 8601):"))
                       (lit "Global Equivalents:"));
       global_equivalents := [] |} in
  if str_in (lit "Global Equivalents:") response
  then V1.equivalents_loop
         (lines (strip (after response (lit "Global Equivalents:")))) fields
  else Ok fields.
Proof.
  unfold V1._parse_response. cbv zeta.
  destruct (str_in (lit "Original:") response) eqn:E1;
  destruct (str_in (lit "Detected Timezone:") response) eqn:E2;
  destruct (str_in (lit "Standardized (ISO 8601):") response) eqn:E3;
  destruct (str_in (lit "Global Equivalents:") response) eqn:E4;
  cbv beta iota;
  repeat first [ rewrite slice_after_k by (lit_ne || assumption)
               | rewrite slice_before by lit_ne
               | rewrite bind_ok
               | progress cbv zeta ];
  rewrite ?split_ok by lit_ne; rewrite ?bind_ok;
  rewrite ?TimezoneFacts.lines_split by reflexivity;
  rewrite ?(field_absent response (lit "Original:")) by assumption;
  rewrite ?(field_absent response (lit "Detected Timezone:")) by assumption;
  rewrite ?(field_absent response (lit "Standardized (ISO 8601):")) by assumption;
  unfold set_standardized, set_detected_timezone, set_original, empty_result;
  cbn [original detected_timezone standardized global_equivalents];
  match goal with
  | |- bind ?m _ = _ => destruct m; reflexivity
  | |- _ => reflexivity
  end.
Qed.

(** The first [_parse_response] raises exactly when a line of the trimmed
    equivalents block holds a "-" and no ":", and then it raises
    ValueError; on every other completion it returns a result. *)
Theorem first_definition_raises_exactly_on_dash_without_colon
  (response : str) (e : exn) :
  V1._parse_response response = Raise e <->
  e = ValueError /\
  exists line,
    In line (lines (strip (after response (lit "Global Equivalents:")))) /\
    str_in (lit "-") line = true /\ str_in (lit ":") line = false.
Proof.
  rewrite first_fields. cbv zeta.
  destruct (str_in (lit "Global Equivalents:") response) eqn:G.
  - destruct (existsb dash_without_colon
                (lines (strip (after response (lit "Global Equivalents:"))))) eqn:B.
    + rewrite first_loop_raises by exact B. split.
      * intros H. injection H as <-. split; [reflexivity|].
        apply existsb_exists in B as (line & I & D).
        unfold dash_without_colon in D. apply andb_true_iff in D as [D1 D2].
        apply negb_true_iff in D2. exists line. repeat split; assumption.
      * intros [-> _]. reflexivity.
    + rewrite first_loop_ok by exact B. split; [discriminate|].
      intros [_ (line & I & D1 & D2)].
      assert (existsb dash_without_colon
                (lines (strip (after response (lit "Global Equivalents:")))) = true) as C.
      { apply existsb_exists. exists line. split; [exact I|].
        unfold dash_without_colon. rewrite D1, D2. reflexivity. }
      congruence.
  - split; [discriminate|].
    intros [_ (line & I & D1 & _)].
    rewrite after_absent in I by assumption.
    destruct I as [<-|[]]. discriminate.
Qed.

(** Whenever the first [_parse_response] returns, its three text fields are
    those of the second definition. *)
Theorem definitions_agree_on_text_fields (response : str) (first : TzResult) :
  V1._parse_response response = Ok first ->
  original first = original (fst (_parse_response response)) /\
  detected_timezone first = detected_timezone (fst (_parse_response response)) /\
  standardized first = standardized (fst (_parse_response response)).
Proof.
  rewrite first_fields, tz_closed. cbv zeta.
  cbn [fst original detected_timezone standardized].
  destruct (str_in (lit "Global Equivalents:") response).
  - destruct (existsb dash_without_colon
                (lines (strip (after response (lit "Global Equivalents:"))))) eqn:B.
    + rewrite first_loop_raises by exact B. discriminate.
    + rewrite first_loop_ok by exact B. intros H. injection H as <-.
      apply first_loop_frame.
  - intros H. injection H as <-. repeat split.
Qed.

Lemma definitions_agree_witness :
  exists first,
    V1._parse_response
      (lit "Original: 2pm EST Detected Timezone: EST Standardized (ISO 8601): 2024-03-15T14:00:00-05:00 Global Equivalents: - UTC: 19:00") = Ok first /\
    original first = lit "2pm EST" /\
    original (fst (_parse_response
      (lit "Original: 2pm EST Detected Timezone: EST Standardized (ISO 8601): 2024-03-15T14:00:00-05:00 Global Equivalents: - UTC: 19:00"))) = lit "2pm EST".
Proof.
  eexists. split; [vm_compute; reflexivity|].
  split; [reflexivity|].
  destruct (definitions_agree_on_text_fields
              (lit "Original: 2pm EST Detected Timezone: EST Standardized (ISO 8601): 2024-03-15T14:00:00-05:00 Global Equivalents: - UTC: 19:00")
              _ eq_refl) as (H & _).
  rewrite <- H. reflexivity.
Defined.

Section ChainFacts.

Variable date_parser_chain : str -> res str.


End ChainFacts.


End TimezoneMore.
